(** * Pisiks: the vector lessons of [vector.py]

    A shallow embedding of the computational core of the vector learning
    application: the form-to-vector reader [VectorInput.get_vector], the
    plot renderer [PlotManager] and the [plot]/[compute] handlers of the four
    lesson panels.

    Numbers are IEEE 754 binary64 values, as Python's [float] and numpy's
    [float64] are: they are modelled by Rocq's primitive floats.  The text of
    an entry is a [string] whose characters stand for code points below 256;
    the captions of the interface are kept as the source spells them.
    Widgets are records holding what the handlers read and write; a handler
    is a function from the state before the event to the result and the
    state after it.  What the libraries decide, the parsing of a number by
    the interpreter and the drawing of a figure by matplotlib, is a parameter
    of the handlers. *)

From Stdlib Require Import Floats List String Ascii ZArith Bool Lia.
From Stdlib Require Import DecimalString.
Import ListNotations.

Open Scope string_scope.
Open Scope float_scope.

(** ** What the Python runtime provides *)

(** [str.strip()] and [float(text)] are builtins of the interpreter, not code
    of the application.  [py_float] returns [None] where [float] raises
    [ValueError]. *)
Class PyRuntime : Type := {
  py_strip : string -> string;
  py_float : string -> option float
}.

(** *** CPython's builtins on text of code points below 256 *)

Module CPython.

Definition code (c : ascii) : N := N_of_ascii c.

(** [str.isspace] for one character: TAB, LF, VT, FF, CR, the separators
    0x1c-0x1f, the space, NEL (0x85) and the no-break space (0xa0). *)
Definition isspace (c : ascii) : bool :=
  let n := code c in
  (((9 <=? n) && (n <=? 13)) || ((28 <=? n) && (n <=? 32))
   || (n =? 133) || (n =? 160))%N.

(** C's [isspace] in the "C" locale, used by the float parser. *)
Definition c_isspace (c : ascii) : bool :=
  let n := code c in
  (((9 <=? n) && (n <=? 13)) || (n =? 32))%N.

Fixpoint lstrip (p : ascii -> bool) (s : string) : string :=
  match s with
  | String c r => if p c then lstrip p r else s
  | EmptyString => EmptyString
  end.

Fixpoint rstrip (p : ascii -> bool) (s : string) : string :=
  match s with
  | String c r =>
      match rstrip p r with
      | EmptyString => if p c then EmptyString else String c EmptyString
      | r' => String c r'
      end
  | EmptyString => EmptyString
  end.

Definition strip (s : string) : string := rstrip isspace (lstrip isspace s).

Fixpoint map_chars (f : ascii -> ascii) (s : string) : string :=
  match s with
  | String c r => String (f c) (map_chars f r)
  | EmptyString => EmptyString
  end.

(** Before parsing, [float] turns the non-ASCII white space of a text into
    spaces. *)
Definition space_to_ascii (c : ascii) : ascii :=
  if ((code c =? 133) || (code c =? 160))%N then " "%char else c.

Definition lower (c : ascii) : ascii :=
  let n := code c in
  if ((65 <=? n) && (n <=? 90))%N then ascii_of_N (n + 32) else c.

Definition digit_of (c : ascii) : option Z :=
  let n := code c in
  if ((48 <=? n) && (n <=? 57))%N then Some (Z.of_N (n - 48)) else None.

(** [digits acc k s] reads the rest of a [digitpart]: digits, each
    optionally preceded by one underscore.  It returns the number read on
    top of [acc], the count of digits added to [k], and the unread text. *)
Fixpoint digits (acc : Z) (k : Z) (s : string) : Z * Z * string :=
  match s with
  | String c r =>
      match digit_of c with
      | Some d => digits (10 * acc + d) (k + 1) r
      | None =>
          if (code c =? 95)%N then
            match r with
            | String c' r' =>
                match digit_of c' with
                | Some d => digits (10 * acc + d) (k + 1) r'
                | None => (acc, k, s)
                end
            | EmptyString => (acc, k, s)
            end
          else (acc, k, s)
      end
  | EmptyString => (acc, k, s)
  end.

(** A [digitpart] starts with a digit. *)
Definition digitpart (acc : Z) (s : string) : option (Z * Z * string) :=
  match s with
  | String c r =>
      match digit_of c with
      | Some d => Some (digits (10 * acc + d) 1 r)
      | None => None
      end
  | EmptyString => None
  end.

Definition sign (s : string) : bool * string :=
  match s with
  | String "-"%char r => (true, r)
  | String "+"%char r => (false, r)
  | _ => (false, s)
  end.

(** [number]: the digits of the integer and of the fractional part as one
    integer, with the count of fractional digits. *)
Definition number (s : string) : option (Z * Z * string) :=
  match digitpart 0 s with
  | Some (m, _, String "."%char r) =>
      match digitpart m r with
      | Some (m', k, r') => Some (m', k, r')
      | None => Some (m, 0%Z, r)
      end
  | Some (m, _, r) => Some (m, 0%Z, r)
  | None =>
      match s with
      | String "."%char r => digitpart 0 r
      | _ => None
      end
  end.

(** [exponent]: absent, or [e] or [E], a sign and a [digitpart].  A
    malformed exponent is left unread. *)
Definition exponent (s : string) : Z * string :=
  match s with
  | String c r =>
      if (code (lower c) =? 101)%N then
        let '(neg, r1) := sign r in
        match digitpart 0 r1 with
        | Some (e, _, r2) => ((if neg then - e else e)%Z, r2)
        | None => (0%Z, s)
        end
      else (0%Z, s)
  | EmptyString => (0%Z, s)
  end.

(** The binary64 value nearest to [m * 10 ^ e10], ties to even. *)
Definition of_decimal (neg : bool) (m : Z) (e10 : Z) : spec_float :=
  match m with
  | Zpos p =>
      if (0 <=? e10)%Z then
        match (m * 10 ^ e10)%Z with
        | Zpos n => binary_round prec emax neg n 0
        | _ => S754_nan
        end
      else
        let d := (10 ^ (- e10))%Z in
        let s := Z.max 0 (64 + Zdigits2 d - Zdigits2 m) in
        let '(q, r) := Z.div_eucl (Z.shiftl m s) d in
        binary_round_aux prec emax neg q (- s) (new_location d r)
  | _ => S754_zero neg
  end.

(** [float(text)]: [None] stands for [ValueError]. *)
Definition parse_float (text : string) : option float :=
  let s := map_chars space_to_ascii text in
  let s := rstrip c_isspace (lstrip c_isspace s) in
  let '(neg, body) := sign s in
  let word := map_chars lower body in
  if (word =? "inf")%string || (word =? "infinity")%string then
    Some (if neg then neg_infinity else infinity)
  else if (word =? "nan")%string then Some nan
  else
    match number body with
    | Some (m, k, r) =>
        match exponent r with
        | (e, EmptyString) => Some (SF2Prim (of_decimal neg m (e - k)))
        | _ => None
        end
    | None => None
    end.

Definition runtime : PyRuntime :=
  {| py_strip := strip; py_float := parse_float |}.

End CPython.

(** ** Exceptions and handler state *)

Inductive exn : Type := IndexError | ValueError | RuntimeError.

(** The result of evaluating an expression: a value, or a raised exception. *)
Inductive res (A : Type) : Type :=
| Val (a : A)
| Exc (e : exn).
Arguments Val {A} a.
Arguments Exc {A} e.

(** A statement sequence run on a mutable object of type [S]: the object is
    still there, as mutated so far, when an exception leaves the sequence. *)
Definition M (S A : Type) : Type := S -> res A * S.

Definition ret {S A} (a : A) : M S A := fun s => (Val a, s).

Definition raise {S A} (e : exn) : M S A := fun s => (Exc e, s).

Definition bind {S A B} (m : M S A) (k : A -> M S B) : M S B :=
  fun s =>
    match m s with
    | (Val a, s') => k a s'
    | (Exc e, s') => (Exc e, s')
    end.

Definition modify {S} (f : S -> S) : M S unit := fun s => (Val tt, f s).

Definition gets {S A} (f : S -> A) : M S A := fun s => (Val (f s), s).

Definition eval {S A} (r : res A) : M S A := fun s => (r, s).

Declare Scope stmt_scope.
Delimit Scope stmt_scope with stmt.
Notation "x <- c ;; k" := (bind c (fun x => k))
  (at level 61, c at next level, right associativity) : stmt_scope.
Notation "c ;; k" := (bind c (fun _ => k))
  (at level 61, right associativity) : stmt_scope.
Open Scope stmt_scope.

Definition when {S} (c : bool) (body : M S unit) : M S unit :=
  if c then body else ret tt.

Fixpoint for_each {S A} (l : list A) (body : A -> M S unit) : M S unit :=
  match l with
  | [] => ret tt
  | x :: r => body x ;; for_each r body
  end.

(** Python's [zip] of three lists stops with the shortest. *)
Definition zip3 {A B C} (a : list A) (b : list B) (c : list C)
  : list (A * B * C) :=
  combine (combine a b) c.

(** ** Fused multiply-add *)

(** [x * y + z] with a single rounding, to nearest and ties to even: the
    product is kept exact until the sum has been taken. *)
Definition SFfma (x y z : spec_float) : spec_float :=
  match x, y with
  | S754_nan, _ | _, S754_nan => S754_nan
  | S754_infinity _, S754_zero _ | S754_zero _, S754_infinity _ => S754_nan
  | S754_infinity sx, S754_infinity sy
  | S754_infinity sx, S754_finite sy _ _
  | S754_finite sx _ _, S754_infinity sy =>
      SFadd prec emax (S754_infinity (xorb sx sy)) z
  | S754_zero sx, S754_zero sy
  | S754_zero sx, S754_finite sy _ _
  | S754_finite sx _ _, S754_zero sy =>
      SFadd prec emax (S754_zero (xorb sx sy)) z
  | S754_finite sx mx ex, S754_finite sy my ey =>
      let sp := xorb sx sy in
      let mp := (mx * my)%positive in
      let ep := (ex + ey)%Z in
      match z with
      | S754_nan => S754_nan
      | S754_infinity _ => z
      | S754_zero _ => binary_round_aux prec emax sp (Zpos mp) ep loc_Exact
      | S754_finite sz mz ez =>
          let e := Z.min ep ez in
          binary_normalize prec emax
            (cond_Zopp sp (Zpos (fst (shl_align mp ep e)))
             + cond_Zopp sz (Zpos (fst (shl_align mz ez e))))
            e false
      end
  end.

Definition fma (x y z : float) : float :=
  SF2Prim (SFfma (Prim2SF x) (Prim2SF y) (Prim2SF z)).

(** ** numpy on one-dimensional [float64] arrays *)

(** A one-dimensional array is the list of its elements. *)
Abbreviation ndarray := (list float).

Module np.

Definition array (l : list float) : ndarray := l.

(** [v[i]] for [i >= 0]. *)
Definition getitem (v : ndarray) (i : nat) : res float :=
  match nth_error v i with
  | Some x => Val x
  | None => Exc IndexError
  end.

(** [v[:n]]. *)
Definition upto (n : nat) (v : ndarray) : ndarray := firstn n v.

(** Elementwise binary operation with broadcasting of the shapes
    [(n,)] and [(m,)]. *)
Definition broadcast (f : float -> float -> float) (a b : ndarray)
  : res ndarray :=
  if (List.length a =? List.length b)%nat then
    Val (map (fun p => f (fst p) (snd p)) (combine a b))
  else
    match a, b with
    | [x], _ => Val (map (fun y => f x y) b)
    | _, [y] => Val (map (fun x => f x y) a)
    | _, _ => Exc ValueError
    end.

Definition add : ndarray -> ndarray -> res ndarray := broadcast PrimFloat.add.
Definition subtract : ndarray -> ndarray -> res ndarray :=
  broadcast PrimFloat.sub.

(** [k * v] and [v / d] with a scalar. *)
Definition multiply (k : float) (v : ndarray) : ndarray :=
  map (fun x => k * x) v.
Definition true_divide (v : ndarray) (d : float) : ndarray :=
  map (fun x => x / d) v.

Definition zeros_like (v : ndarray) : ndarray := map (fun _ => 0) v.

(** [a.dot(b)] for two arrays of one length.  numpy leaves the sum of the
    products to the [ddot] routine of BLAS, which accumulates it from 0.0,
    first element first; where the processor has a fused multiply-add, as
    x86-64 and AArch64 have, each product is added to the sum with a single
    rounding. *)
Definition dot (a b : ndarray) : float :=
  fold_left (fun acc p => fma (fst p) (snd p) acc) (combine a b) 0.

Module linalg.

(** [norm(v)], the 2-norm of a vector, which numpy computes as
    [sqrt(v.dot(v))]. *)
Definition norm (v : ndarray) : float := PrimFloat.sqrt (dot v v).

End linalg.

End np.

(** The literals [1e-10] and [0.05] as binary64 values. *)
Definition SMALL : float := 0x1.b7cdfd9d7bdbbp-34.
Definition OFFSET_RATIO : float := 0x1.999999999999ap-5.

(** ** Formatted text *)

(** An f-string is kept as the sequence of its parts: literal text, a number
    under the format [.nf], or a number under [str]. *)
Inductive fragment : Type :=
| Lit (s : string)
| Fixed (digits : nat) (x : float)
| Repr (x : float).

Abbreviation text := (list fragment).

Definition nl : string := String (ascii_of_nat 10) EmptyString.

(** ** Colors *)

Definition PRIMARY_BLUE : string := "#2b7be9".
Definition PRIMARY_RED : string := "#e24b4b".
Definition PRIMARY_GREEN : string := "#26a653".

(** ** The plot *)

Inductive Projection : Type := Rectilinear | Projection3D.

(** What is drawn on the axes.  Styling that does not depend on the data
    (fonts, line widths, transparency, axis names, grid, viewing angle) is
    left out. *)
Inductive Artist : Type :=
| Scatter (at_ : list float) (label : string)
| AxHLine (y : float)
| AxVLine (x : float)
| Quiver (tail tip : list float) (color : string) (label : text)
| Text (at_ : list float) (body : text) (color : string).

Record Axes : Type := {
  projection : Projection;
  xlim : option (float * float);
  ylim : option (float * float);
  zlim : option (float * float);
  artists : list Artist;  (* in drawing order *)
  title : option text;
  legend : bool
}.

Record Figure : Type := {
  figsize : Z * Z;
  axes : Axes
}.

(** The attributes that [PlotManager] keeps on the frame of a lesson; [false]
    and [None] stand for an attribute that is absent or whose widget has been
    destroyed. *)
Record Tab : Type := {
  plot_container : bool;
  plot_frame : bool;
  canvas_widget : option Figure;
  toolbar : bool
}.

(** ** What matplotlib provides *)

(** Laying a figure out and drawing it on a canvas is the work of the
    library, and the library may refuse it: [canvas.draw()] raises
    [RuntimeError] on an arrow that reaches too far out of the axes.
    [draw_plot] is the outcome of [plt.tight_layout()],
    [FigureCanvasTkAgg(fig, ...)] and [canvas.draw()] for the figure of a plot;
    [draw_formula] is their outcome for the figure that
    [FormulaRenderer.render] makes of a text at a font size. *)
Class Matplotlib : Type := {
  draw_plot : Figure -> res unit;
  draw_formula : Z -> text -> res unit
}.

(** A library that draws whatever it is given, and one that refuses every
    plot. *)
Definition draws_all : Matplotlib :=
  {| draw_plot := fun _ => Val tt; draw_formula := fun _ _ => Val tt |}.

Definition refuses_plots : Matplotlib :=
  {| draw_plot := fun _ => Exc RuntimeError;
     draw_formula := fun _ _ => Val tt |}.

Module PlotManager.

Definition add_subplot (p : Projection) : Axes :=
  {| projection := p; xlim := None; ylim := None; zlim := None;
     artists := []; title := None; legend := false |}.

(** An axis limit has to be finite: matplotlib raises [ValueError] on a NaN
    and on an infinity. *)
Definition valid_limit (v : float) : res unit :=
  if PrimFloat.is_finite v then Val tt else Exc ValueError.

Definition set_xlim (lo hi : float) : M Axes unit :=
  eval (valid_limit lo) ;;
  eval (valid_limit hi) ;;
  modify (fun ax =>
    {| projection := projection ax; xlim := Some (lo, hi); ylim := ylim ax;
       zlim := zlim ax; artists := artists ax; title := title ax;
       legend := legend ax |}).

Definition set_ylim (lo hi : float) : M Axes unit :=
  eval (valid_limit lo) ;;
  eval (valid_limit hi) ;;
  modify (fun ax =>
    {| projection := projection ax; xlim := xlim ax; ylim := Some (lo, hi);
       zlim := zlim ax; artists := artists ax; title := title ax;
       legend := legend ax |}).

Definition set_zlim (lo hi : float) : M Axes unit :=
  eval (valid_limit lo) ;;
  eval (valid_limit hi) ;;
  modify (fun ax =>
    {| projection := projection ax; xlim := xlim ax; ylim := ylim ax;
       zlim := Some (lo, hi); artists := artists ax; title := title ax;
       legend := legend ax |}).

Definition draw (a : Artist) : M Axes unit :=
  modify (fun ax =>
    {| projection := projection ax; xlim := xlim ax; ylim := ylim ax;
       zlim := zlim ax; artists := (artists ax ++ [a])%list; title := title ax;
       legend := legend ax |}).

Definition set_title (t : text) (ax : Axes) : Axes :=
  {| projection := projection ax; xlim := xlim ax; ylim := ylim ax;
     zlim := zlim ax; artists := artists ax; title := Some t;
     legend := legend ax |}.

Definition show_legend (ax : Axes) : Axes :=
  {| projection := projection ax; xlim := xlim ax; ylim := ylim ax;
     zlim := zlim ax; artists := artists ax; title := title ax;
     legend := true |}.

(** The loop body of [setup_3d_plot]. *)
Definition arrow_3d (offset : float) (item : ndarray * string * text)
  : M Axes unit :=
  let '(vec, color, label) := item in
  when (SMALL <? np.linalg.norm vec)
    (v0 <- eval (np.getitem vec 0) ;;
     v1 <- eval (np.getitem vec 1) ;;
     v2 <- eval (np.getitem vec 2) ;;
     draw (Quiver [0; 0; 0] [v0; v1; v2] color label) ;;
     draw (Text [v0 + offset; v1 + offset; v2 + offset]
             (label ++ [Lit nl; Lit "("; Fixed 2 v0; Lit ", "; Fixed 2 v1;
                        Lit ", "; Fixed 2 v2; Lit ")"])%list
             color)).

Definition setup_3d_plot (vectors : list ndarray) (colors : list string)
    (labels : list text) (limits : float) : M Axes unit :=
  set_xlim (- limits) limits ;;
  set_ylim (- limits) limits ;;
  set_zlim (- limits) limits ;;
  draw (Scatter [0; 0; 0] "Origin") ;;
  let offset := limits * OFFSET_RATIO in
  for_each (zip3 vectors colors labels) (arrow_3d offset).

(** The loop body of [setup_2d_plot]. *)
Definition arrow_2d (offset : float) (item : ndarray * string * text)
  : M Axes unit :=
  let '(vec, color, label) := item in
  when (SMALL <? np.linalg.norm (np.upto 2 vec))
    (v0 <- eval (np.getitem vec 0) ;;
     v1 <- eval (np.getitem vec 1) ;;
     draw (Quiver [0; 0] [v0; v1] color label) ;;
     draw (Text [v0 + offset; v1 + offset]
             (label ++ [Lit nl; Lit "("; Fixed 2 v0; Lit ", "; Fixed 2 v1;
                        Lit ")"])%list
             color)).

Definition setup_2d_plot (vectors : list ndarray) (colors : list string)
    (labels : list text) (limits : float) : M Axes unit :=
  set_xlim (- limits) limits ;;
  set_ylim (- limits) limits ;;
  draw (Scatter [0; 0] "Origin") ;;
  draw (AxHLine 0) ;;
  draw (AxVLine 0) ;;
  let offset := limits * OFFSET_RATIO in
  for_each (zip3 vectors colors labels) (arrow_2d offset).

(** Every attribute that is present has its widget destroyed. *)
Definition clear_plot : M Tab unit :=
  modify (fun _ =>
    {| plot_container := false; plot_frame := false; canvas_widget := None;
       toolbar := false |}).

(** [any(abs(vec[2]) > 1e-10 for vec in vectors if len(vec) >= 3)] *)
Definition needs_3d (vectors : list ndarray) : bool :=
  existsb
    (fun vec =>
       match nth_error vec 2 with
       | Some z => SMALL <? PrimFloat.abs z
       | None => false
       end)
    (filter (fun vec => (3 <=? List.length vec)%nat) vectors).

(** Runs a setup on fresh axes of the figure; the figure is dropped when
    the setup raises. *)
Definition on_subplot (p : Projection) (setup : M Axes unit) : M Tab Axes :=
  fun tab =>
    match setup (add_subplot p) with
    | (Val _, ax) => (Val ax, tab)
    | (Exc e, _) => (Exc e, tab)
    end.

Section Drawing.
Context {mpl : Matplotlib}.

(** The frame gets its canvas, and its toolbar, once the figure has been
    drawn: when a setup or the drawing raises, the two containers are all
    that the frame holds. *)
Definition plot_vectors (vectors : list ndarray) (colors : list string)
    (labels : list text) (title : text) (limits : float)
    (show_toolbar : bool) : M Tab unit :=
  clear_plot ;;
  modify (fun tab =>
    {| plot_container := true; plot_frame := plot_frame tab;
       canvas_widget := canvas_widget tab; toolbar := toolbar tab |}) ;;
  modify (fun tab =>
    {| plot_container := plot_container tab; plot_frame := true;
       canvas_widget := canvas_widget tab; toolbar := toolbar tab |}) ;;
  let needs_3d := needs_3d vectors in
  let fig_width := if needs_3d then 8%Z else 7%Z in
  let fig_height := if needs_3d then 6%Z else 5%Z in
  ax <- (if needs_3d
         then on_subplot Projection3D
                (setup_3d_plot vectors colors labels limits)
         else on_subplot Rectilinear
                (setup_2d_plot vectors colors labels limits)) ;;
  let ax := set_title title ax in
  let ax := if (1 <? List.length vectors)%nat then show_legend ax else ax in
  let fig := {| figsize := (fig_width, fig_height); axes := ax |} in
  eval (draw_plot fig) ;;
  when show_toolbar
    (modify (fun tab =>
       {| plot_container := plot_container tab; plot_frame := plot_frame tab;
          canvas_widget := canvas_widget tab; toolbar := true |})) ;;
  modify (fun tab =>
    {| plot_container := plot_container tab; plot_frame := plot_frame tab;
       canvas_widget := Some fig; toolbar := toolbar tab |}).

End Drawing.

End PlotManager.

(** ** The information panel of a lesson *)

Inductive InfoItem : Type :=
| Label (body : text)
| Formula (body : text).

(** The children of an [info_frame], in the order of their creation. *)
Abbreviation InfoFrame := (list InfoItem).

Definition pack (w : InfoItem) : M InfoFrame unit :=
  modify (fun frame => (frame ++ [w])%list).

(** [FormulaRenderer.render(formula_frame, formula, fontsize)] as a statement
    of [show_info]: the canvas of the formula is packed once the formula has
    been drawn. *)
Definition render_formula {mpl : Matplotlib} (fontsize : Z) (formula : text)
  : M InfoFrame unit :=
  eval (draw_formula fontsize formula) ;;
  pack (Formula formula).

(** Runs statements on one attribute of an object. *)
Definition on_field {S F A} (get : S -> F) (set : F -> S -> S) (m : M F A)
  : M S A :=
  fun s => let (r, f) := m (get s) in (r, set f s).

(** [self.info_frame] is destroyed if present and replaced by a new, empty
    frame, which the statements [m] then fill. *)
Definition on_new_frame {S A} (set : option InfoFrame -> S -> S)
    (m : M InfoFrame A) : M S A :=
  fun s => let (r, f) := m [] in (r, set (Some f) s).

Definition no_plot : Tab :=
  {| plot_container := false; plot_frame := false; canvas_widget := None;
     toolbar := false |}.

(** ** The vector form *)

Module VectorInput.

(** The text held by each entry, in the order of creation. *)
Record t : Type := { entries : list string }.

(** [str(val)] for an integer. *)
Definition str (val : Z) : string := NilZero.string_of_int (Z.to_int val).

Definition create_widgets (label : string) (defaults : list Z) : M t unit :=
  for_each (combine ["X"; "Y"; "Z"] defaults)
    (fun item =>
       let '(comp, val) := item in
       modify (fun self => {| entries := (entries self ++ [str val])%list |})).

Definition init (label : string) (default_values : list Z) : t :=
  snd (create_widgets label default_values {| entries := [] |}).

(** The user replaces the text of the entry at position [i]. *)
Fixpoint retype (i : nat) (txt : string) (l : list string) : list string :=
  match l, i with
  | [], _ => []
  | _ :: r, O => txt :: r
  | e :: r, S j => e :: retype j txt r
  end.

Definition edit (i : nat) (txt : string) (self : t) : t :=
  {| entries := retype i txt (entries self) |}.

Definition reset (self : t) : t :=
  {| entries := map (fun _ => "0") (entries self) |}.

Section Reader.
Context {rt : PyRuntime}.

(** The body of the loop of [get_vector]: the component appended for an
    entry holding [e]. *)
Definition component (e : string) : float :=
  let v := py_strip e in
  if (v =? "")%string || (v =? "-")%string then 0
  else
    match py_float v with
    | Some x => x
    | None => 0
    end.

Definition get_vector (self : t) : ndarray :=
  np.array
    (fold_left (fun vec e => (vec ++ [component e])%list) (entries self) []).

End Reader.

(** The forms that the application can hold: created with at least three
    defaults, then edited or reset. *)
Inductive reachable : t -> Prop :=
| reach_init : forall label defaults,
    (3 <= List.length defaults)%nat -> reachable (init label defaults)
| reach_edit : forall self i txt,
    reachable self -> reachable (edit i txt self)
| reach_reset : forall self,
    reachable self -> reachable (reset self).

End VectorInput.

(** ** The lessons *)

Module VectorBasicsLesson.

Record t : Type := {
  vector_input : VectorInput.t;
  parent : Tab;
  info_frame : option InfoFrame
}.

Definition with_parent (p : Tab) (self : t) : t :=
  {| vector_input := vector_input self; parent := p;
     info_frame := info_frame self |}.

Definition with_info_frame (f : option InfoFrame) (self : t) : t :=
  {| vector_input := vector_input self; parent := parent self;
     info_frame := f |}.

Definition create_ui : t :=
  {| vector_input := VectorInput.init "Enter Vector" [3; 4; 2]%Z;
     parent := no_plot; info_frame := None |}.

(** The text of the formula, from the components and the magnitude. *)
Definition formula (v0 v1 v2 mag : float) : text :=
  [Lit "$|\vec{V}| = \sqrt{X^2 + Y^2 + Z^2}$"; Lit nl;
   Lit "$= \sqrt{"; Fixed 3 v0; Lit "^2 + "; Fixed 3 v1;
   Lit "^2 + "; Fixed 3 v2; Lit "^2"; Lit "}$"; Lit nl;
   Lit "$= "; Fixed 4 mag; Lit "$"].

Definition reset : M t unit :=
  modify (fun self =>
    {| vector_input := VectorInput.reset (vector_input self);
       parent := no_plot; info_frame := None |}).

Section Handlers.
Context {rt : PyRuntime} {mpl : Matplotlib}.

Definition show_info (vec : ndarray) (mag : float) : M t unit :=
  on_new_frame with_info_frame
    (pack (Label [Lit "📐 Vector Analysis"]) ;;
     v0 <- eval (np.getitem vec 0) ;;
     v1 <- eval (np.getitem vec 1) ;;
     v2 <- eval (np.getitem vec 2) ;;
     pack (Label [Lit "Components: ("; Fixed 3 v0; Lit ", "; Fixed 3 v1;
                  Lit ", "; Fixed 3 v2; Lit ")"]) ;;
     pack (Label [Lit "Magnitude: |V| = "; Fixed 4 mag]) ;;
     render_formula 13 (formula v0 v1 v2 mag)).

Definition plot : M t unit :=
  vec <- gets (fun self => VectorInput.get_vector (vector_input self)) ;;
  on_field parent with_parent
    (PlotManager.plot_vectors [vec] [PRIMARY_BLUE] [[Lit "V"]]
       [Lit "Vector Visualization"] 10 true) ;;
  let mag := np.linalg.norm vec in
  show_info vec mag.

End Handlers.

End VectorBasicsLesson.

Module VectorAddSubLesson.

Record t : Type := {
  vector_a : VectorInput.t;
  vector_b : VectorInput.t;
  op_var : string;
  parent : Tab;
  info_frame : option InfoFrame
}.

Definition with_parent (p : Tab) (self : t) : t :=
  {| vector_a := vector_a self; vector_b := vector_b self;
     op_var := op_var self; parent := p; info_frame := info_frame self |}.

Definition with_info_frame (f : option InfoFrame) (self : t) : t :=
  {| vector_a := vector_a self; vector_b := vector_b self;
     op_var := op_var self; parent := parent self; info_frame := f |}.

Definition create_ui : t :=
  {| vector_a := VectorInput.init "Vector A" [3; 2; 1]%Z;
     vector_b := VectorInput.init "Vector B" [1; 3; -1]%Z;
     op_var := "Add"; parent := no_plot; info_frame := None |}.

(** The user picks one of the two radio buttons. *)
Definition choose (op : string) (self : t) : t :=
  {| vector_a := vector_a self; vector_b := vector_b self; op_var := op;
     parent := parent self; info_frame := info_frame self |}.

(** The text of the formula, from the components of the three vectors. *)
Definition formula (a0 a1 a2 b0 b1 b2 r0 r1 r2 : float) (op : string)
  : text :=
  let sign := if (op =? "Add")%string then "+" else "-" in
  [Lit "$\vec{R} = \vec{A} ";
   Lit (if (op =? "Add")%string then "+ \vec{B}$" else "- \vec{B}$"); Lit nl;
   Lit "$R_x = "; Fixed 2 a0; Lit " "; Lit sign; Lit " ";
   Fixed 2 b0; Lit " = "; Fixed 2 r0; Lit "$"; Lit nl;
   Lit "$R_y = "; Fixed 2 a1; Lit " "; Lit sign; Lit " ";
   Fixed 2 b1; Lit " = "; Fixed 2 r1; Lit "$"; Lit nl;
   Lit "$R_z = "; Fixed 2 a2; Lit " "; Lit sign; Lit " ";
   Fixed 2 b2; Lit " = "; Fixed 2 r2; Lit "$"].

Definition reset : M t unit :=
  modify (fun self =>
    {| vector_a := VectorInput.reset (vector_a self);
       vector_b := VectorInput.reset (vector_b self);
       op_var := op_var self; parent := no_plot; info_frame := None |}).

Section Handlers.
Context {rt : PyRuntime} {mpl : Matplotlib}.

Definition show_info (vec_a vec_b result : ndarray) (op : string)
  : M t unit :=
  on_new_frame with_info_frame
    (pack (Label [Lit "📐 "; Lit op; Lit "ition Result"]) ;;
     a0 <- eval (np.getitem vec_a 0) ;;
     a1 <- eval (np.getitem vec_a 1) ;;
     a2 <- eval (np.getitem vec_a 2) ;;
     pack (Label [Lit "A = ("; Fixed 3 a0; Lit ", "; Fixed 3 a1; Lit ", ";
                  Fixed 3 a2; Lit ")"]) ;;
     b0 <- eval (np.getitem vec_b 0) ;;
     b1 <- eval (np.getitem vec_b 1) ;;
     b2 <- eval (np.getitem vec_b 2) ;;
     pack (Label [Lit "B = ("; Fixed 3 b0; Lit ", "; Fixed 3 b1; Lit ", ";
                  Fixed 3 b2; Lit ")"]) ;;
     r0 <- eval (np.getitem result 0) ;;
     r1 <- eval (np.getitem result 1) ;;
     r2 <- eval (np.getitem result 2) ;;
     pack (Label [Lit "Result = ("; Fixed 3 r0; Lit ", "; Fixed 3 r1;
                  Lit ", "; Fixed 3 r2; Lit ")"]) ;;
     render_formula 12 (formula a0 a1 a2 b0 b1 b2 r0 r1 r2 op)).

Definition compute : M t unit :=
  vec_a <- gets (fun self => VectorInput.get_vector (vector_a self)) ;;
  vec_b <- gets (fun self => VectorInput.get_vector (vector_b self)) ;;
  op <- gets op_var ;;
  result <- eval (if (op =? "Add")%string
                  then np.add vec_a vec_b
                  else np.subtract vec_a vec_b) ;;
  on_field parent with_parent
    (PlotManager.plot_vectors [vec_a; vec_b; result]
       [PRIMARY_BLUE; PRIMARY_RED; PRIMARY_GREEN]
       [[Lit "A"]; [Lit "B"]; [Lit "Result"]]
       [Lit "Vector "; Lit op; Lit "ition"] 12 true) ;;
  show_info vec_a vec_b result op.

End Handlers.

End VectorAddSubLesson.

(** A modal message box, shown until the user dismisses it. *)
Inductive Dialog : Type :=
| showerror (title message : string).

Module VectorScalingLesson.

Record t : Type := {
  vector_input : VectorInput.t;
  scalar_entry : string;
  parent : Tab;
  info_frame : option InfoFrame
}.

Definition with_parent (p : Tab) (self : t) : t :=
  {| vector_input := vector_input self; scalar_entry := scalar_entry self;
     parent := p; info_frame := info_frame self |}.

Definition with_info_frame (f : option InfoFrame) (self : t) : t :=
  {| vector_input := vector_input self; scalar_entry := scalar_entry self;
     parent := parent self; info_frame := f |}.

Definition create_ui : t :=
  {| vector_input := VectorInput.init "Vector V" [2; 3; 1]%Z;
     scalar_entry := "2"; parent := no_plot; info_frame := None |}.

(** The user replaces the text of the scalar entry. *)
Definition edit_scalar (txt : string) (self : t) : t :=
  {| vector_input := vector_input self; scalar_entry := txt;
     parent := parent self; info_frame := info_frame self |}.

(** The text of the formula, from the scalar and the components of the two
    vectors. *)
Definition formula (k v0 v1 v2 s0 s1 s2 : float) : text :=
  [Lit "$k \cdot \vec{V} = k \cdot (X, Y, Z)$"; Lit nl;
   Lit "$= ("; Repr k; Lit "·"; Fixed 2 v0; Lit ", ";
   Repr k; Lit "·"; Fixed 2 v1; Lit ", ";
   Repr k; Lit "·"; Fixed 2 v2; Lit ")$"; Lit nl;
   Lit "$= ("; Fixed 2 s0; Lit ", "; Fixed 2 s1; Lit ", ";
   Fixed 2 s2; Lit ")$"].

Definition reset : M t unit :=
  modify (fun self =>
    {| vector_input := VectorInput.reset (vector_input self);
       scalar_entry := "1"; parent := no_plot; info_frame := None |}).

Section Handlers.
Context {rt : PyRuntime} {mpl : Matplotlib}.

Definition show_info (vec : ndarray) (k : float) (scaled_vec : ndarray)
  : M t unit :=
  on_new_frame with_info_frame
    (pack (Label [Lit "📐 Scalar Multiplication Result"]) ;;
     v0 <- eval (np.getitem vec 0) ;;
     v1 <- eval (np.getitem vec 1) ;;
     v2 <- eval (np.getitem vec 2) ;;
     pack (Label [Lit "Original Vector V = ("; Fixed 3 v0; Lit ", ";
                  Fixed 3 v1; Lit ", "; Fixed 3 v2; Lit ")"]) ;;
     pack (Label [Lit "Scalar k = "; Repr k]) ;;
     s0 <- eval (np.getitem scaled_vec 0) ;;
     s1 <- eval (np.getitem scaled_vec 1) ;;
     s2 <- eval (np.getitem scaled_vec 2) ;;
     pack (Label [Lit "Scaled Vector k·V = ("; Fixed 3 s0; Lit ", ";
                  Fixed 3 s1; Lit ", "; Fixed 3 s2; Lit ")"]) ;;
     render_formula 12 (formula k v0 v1 v2 s0 s1 s2)).

(** The statements of [compute] after the scalar has been read. *)
Definition scale_and_show (vec : ndarray) (k : float) : M t unit :=
  let scaled_vec := np.multiply k vec in
  on_field parent with_parent
    (PlotManager.plot_vectors [vec; scaled_vec]
       [PRIMARY_BLUE; PRIMARY_GREEN]
       [[Lit "V"]; [Repr k; Lit "·V"]]
       [Lit "Vector Scaling (k="; Repr k; Lit ")"] 12 true) ;;
  show_info vec k scaled_vec.

(** [compute] yields the dialogs it has shown, its result, and the lesson
    as it leaves it. *)
Definition compute (self : t) : list Dialog * (res unit * t) :=
  let vec := VectorInput.get_vector (vector_input self) in
  match py_float (scalar_entry self) with
  | Some k => ([], scale_and_show vec k self)
  | None =>
      ([showerror "Invalid Input" "Please enter a valid scalar."],
       (Val tt, self))
  end.

End Handlers.

End VectorScalingLesson.

Module VectorMagnitudeLesson.

Record t : Type := {
  vector_input : VectorInput.t;
  parent : Tab;
  info_frame : option InfoFrame
}.

Definition with_parent (p : Tab) (self : t) : t :=
  {| vector_input := vector_input self; parent := p;
     info_frame := info_frame self |}.

Definition with_info_frame (f : option InfoFrame) (self : t) : t :=
  {| vector_input := vector_input self; parent := parent self;
     info_frame := f |}.

Definition create_ui : t :=
  {| vector_input := VectorInput.init "Vector V" [3; 4; 5]%Z;
     parent := no_plot; info_frame := None |}.

(** The text of the formula, from the magnitude and the components of the
    direction. *)
Definition formula (mag d0 d1 d2 : float) : text :=
  [Lit "$|\vec{V}| = \sqrt{X^2 + Y^2 + Z^2} = ";
   Fixed 4 mag; Lit "$"; Lit nl;
   Lit "$\hat{V} = \frac{\vec{V}}{|\vec{V}|} = (";
   Fixed 3 d0; Lit ", "; Fixed 3 d1; Lit ", "; Fixed 3 d2;
   Lit ")$"].

Definition reset : M t unit :=
  modify (fun self =>
    {| vector_input := VectorInput.reset (vector_input self);
       parent := no_plot; info_frame := None |}).

(** The conditional of [compute] that sets [direction].  The division is
    the argument [divide], which [compute] instantiates with numpy's, so
    that a branch can be shown not to depend on it. *)
Definition direction_by (divide : ndarray -> float -> ndarray)
    (vec : ndarray) (mag : float) : ndarray :=
  if SMALL <? mag then divide vec mag else np.zeros_like vec.

Section Handlers.
Context {rt : PyRuntime} {mpl : Matplotlib}.

Definition show_info (vec : ndarray) (mag : float) (direction : ndarray)
  : M t unit :=
  on_new_frame with_info_frame
    (pack (Label [Lit "📐 Vector Analysis"]) ;;
     v0 <- eval (np.getitem vec 0) ;;
     v1 <- eval (np.getitem vec 1) ;;
     v2 <- eval (np.getitem vec 2) ;;
     pack (Label [Lit "Vector V = ("; Fixed 3 v0; Lit ", "; Fixed 3 v1;
                  Lit ", "; Fixed 3 v2; Lit ")"]) ;;
     pack (Label [Lit "Magnitude |V| = "; Fixed 4 mag]) ;;
     d0 <- eval (np.getitem direction 0) ;;
     d1 <- eval (np.getitem direction 1) ;;
     d2 <- eval (np.getitem direction 2) ;;
     pack (Label [Lit "Direction = ("; Fixed 3 d0; Lit ", "; Fixed 3 d1;
                  Lit ", "; Fixed 3 d2; Lit ")"]) ;;
     render_formula 12 (formula mag d0 d1 d2)).

Definition compute : M t unit :=
  vec <- gets (fun self => VectorInput.get_vector (vector_input self)) ;;
  let mag := np.linalg.norm vec in
  let direction := direction_by np.true_divide vec mag in
  on_field parent with_parent
    (PlotManager.plot_vectors [vec] [PRIMARY_BLUE] [[Lit "V"]]
       [Lit "Vector Magnitude & Direction"] 12 true) ;;
  show_info vec mag direction.

End Handlers.

End VectorMagnitudeLesson.

(** ** What a plot setup is expected to draw *)

(** The arrow and the text that the 3D setup owes to one vector: both when the
    norm of the vector exceeds the threshold, nothing otherwise. *)
Definition drawn_3d (offset : float) (item : ndarray * string * text)
  : list Artist :=
  let '(vec, color, label) := item in
  let v0 := nth 0 vec 0 in
  let v1 := nth 1 vec 0 in
  let v2 := nth 2 vec 0 in
  if SMALL <? np.linalg.norm vec then
    [Quiver [0; 0; 0] [v0; v1; v2] color label;
     Text [v0 + offset; v1 + offset; v2 + offset]
       (label ++ [Lit nl; Lit "("; Fixed 2 v0; Lit ", "; Fixed 2 v1;
                  Lit ", "; Fixed 2 v2; Lit ")"])%list
       color]
  else [].

(** The same for the 2D setup, on the first two components. *)
Definition drawn_2d (offset : float) (item : ndarray * string * text)
  : list Artist :=
  let '(vec, color, label) := item in
  let v0 := nth 0 vec 0 in
  let v1 := nth 1 vec 0 in
  if SMALL <? np.linalg.norm (np.upto 2 vec) then
    [Quiver [0; 0] [v0; v1] color label;
     Text [v0 + offset; v1 + offset]
       (label ++ [Lit nl; Lit "("; Fixed 2 v0; Lit ", "; Fixed 2 v1;
                  Lit ")"])%list
       color]
  else [].

Definition add_artists (l : list Artist) (ax : Axes) : Axes :=
  {| projection := projection ax; xlim := xlim ax; ylim := ylim ax;
     zlim := zlim ax; artists := (artists ax ++ l)%list; title := title ax;
     legend := legend ax |}.

Definition is_quiver (a : Artist) : bool :=
  match a with
  | Quiver _ _ _ _ => true
  | _ => false
  end.

(** Statements that leave the observation [f] of the object as it was,
    however they end. *)
Definition keeps {S F A} (f : S -> F) (m : M S A) : Prop :=
  forall s, f (snd (m s)) = f s.


(** The setup that [plot_vectors] runs, and the axes it runs it on. *)
Definition chosen_setup (vectors : list ndarray) (colors : list string)
    (labels : list text) (limits : float) : res unit * Axes :=
  if PlotManager.needs_3d vectors
  then PlotManager.setup_3d_plot vectors colors labels limits
         (PlotManager.add_subplot Projection3D)
  else PlotManager.setup_2d_plot vectors colors labels limits
         (PlotManager.add_subplot Rectilinear).

(** The figure that [plot_vectors] makes of the axes that the setup leaves. *)
Definition figure_of (vectors : list ndarray) (heading : text) (ax : Axes)
  : Figure :=
  let ax := PlotManager.set_title heading ax in
  let ax := if (1 <? List.length vectors)%nat
            then PlotManager.show_legend ax else ax in
  {| figsize := if PlotManager.needs_3d vectors then (8, 6)%Z else (7, 5)%Z;
     axes := ax |}.

(** ** What the information panels show *)

(** A panel shows the label made of the caption [caption], which ends with
    the opening parenthesis, and of three numbers under the format [.3f]. *)
Definition shows_triple (frame : option InfoFrame) (caption : string)
    (x y z : float) : Prop :=
  exists items,
    frame = Some items
    /\ In (Label [Lit caption; Fixed 3 x; Lit ", "; Fixed 3 y; Lit ", ";
                  Fixed 3 z; Lit ")"]) items.

(** A panel shows the label made of the caption and one number under the
    format [.4f]. *)
Definition shows_number (frame : option InfoFrame) (caption : string)
    (x : float) : Prop :=
  exists items,
    frame = Some items /\ In (Label [Lit caption; Fixed 4 x]) items.

(** ** The colour of an entry *)

Definition ENTRY_BG : string := "#f8f9fa".
Definition INVALID_BG : string := "#ffcccc".

Module EntryWidget.

(** A [tk.Entry]: the text it holds and its background colour. *)
Record t : Type := { text_of : string; bg : string }.

Definition config_bg (color : string) (entry : t) : t :=
  {| text_of := text_of entry; bg := color |}.

(** The user replaces the text; the colour stays until the next
    validation. *)
Definition retext (txt : string) (entry : t) : t :=
  {| text_of := txt; bg := bg entry |}.

Section Validation.
Context {rt : PyRuntime}.

(** [VectorInput.validate_input], on the entry that received the key. *)
Definition validate_input (entry : t) : t :=
  let value := text_of entry in
  if negb (value =? "")%string && negb (value =? "-")%string then
    match py_float value with
    | Some _ => config_bg ENTRY_BG entry
    | None => config_bg INVALID_BG entry
    end
  else entry.

End Validation.

End EntryWidget.

(** ** The formula renderer *)

Module FormulaRenderer.

(** [latex_text.count("\n")] *)
Fixpoint count_newlines (s : string) : Z :=
  match s with
  | String c r =>
      ((if (N_of_ascii c =? 10)%N then 1 else 0) + count_newlines r)%Z
  | EmptyString => 0%Z
  end.

(** The float nearest to an integer, as the product of a float and an [int]
    takes it. *)
Definition float_of_int (n : Z) : float :=
  SF2Prim (binary_normalize prec emax n 0 false).

(** [min(a, b)] of two floats: [b] when [b < a], else [a]. *)
Definition py_min (a b : float) : float := if b <? a then b else a.

(** The literals [1.2] and [0.3] as binary64 values. *)
Definition BASE_HEIGHT : float := 0x1.3333333333333p+0.
Definition LINE_HEIGHT : float := 0x1.3333333333333p-2.

Definition lines_of (latex_text : string) : Z :=
  Z.max 1 (count_newlines latex_text + 1).

(** The height of the figure that [render] creates for a text. *)
Definition height_of (latex_text : string) : float :=
  let lines := lines_of latex_text in
  py_min 3 (BASE_HEIGHT + LINE_HEIGHT * float_of_int (lines - 1)).

(** [render]: the size of the figure and the text drawn in it. *)
Definition render (latex_text : string) : (float * float) * string :=
  ((10, height_of latex_text), latex_text).

End FormulaRenderer.

(** ** The application shell *)

(** What a lesson frame holds: the lesson built in it. *)
Inductive LessonPanel : Type :=
| BasicsPanel (lesson : VectorBasicsLesson.t)
| AddSubPanel (lesson : VectorAddSubLesson.t)
| ScalingPanel (lesson : VectorScalingLesson.t)
| MagnitudePanel (lesson : VectorMagnitudeLesson.t)
| EmptyPanel.

Record LessonFrame : Type := {
  packed : bool;  (* managed by the packer, that is, shown *)
  panel : LessonPanel
}.

(** A [dict] with text keys, as the list of its items in insertion order; a
    key occurs once. *)
Fixpoint dict_get {V} (k : string) (d : list (string * V)) : option V :=
  match d with
  | [] => None
  | (k', v) :: r => if (k' =? k)%string then Some v else dict_get k r
  end.

(** [d[k] = v] *)
Fixpoint dict_set {V} (k : string) (v : V) (d : list (string * V))
  : list (string * V) :=
  match d with
  | [] => [(k, v)]
  | (k', v') :: r =>
      if (k' =? k)%string then (k', v) :: r else (k', v') :: dict_set k v r
  end.

(** A method call on every value of the dict. *)
Definition dict_each {V} (f : V -> V) (d : list (string * V))
  : list (string * V) :=
  map (fun item => (fst item, f (snd item))) d.

(** A method call on the value at the key [k]. *)
Definition dict_at {V} (k : string) (f : V -> V) (d : list (string * V))
  : list (string * V) :=
  map (fun item => if (fst item =? k)%string
                   then (fst item, f (snd item)) else item) d.

Definition dict_keys {V} (d : list (string * V)) : list string := map fst d.

Module VectorLearningApp.

Record t : Type := { lesson_frames : list (string * LessonFrame) }.

Definition lessons : list string :=
  ["Vector Basics"; "Vector Addition & Subtraction"; "Vector Scaling";
   "Vector Magnitude & Direction"].

Definition pack_forget (f : LessonFrame) : LessonFrame :=
  {| packed := false; panel := panel f |}.

Definition pack (f : LessonFrame) : LessonFrame :=
  {| packed := true; panel := panel f |}.

(** The lesson that [show_lesson] builds in a new frame; none for a name
    that is not a lesson. *)
Definition new_panel (name : string) : LessonPanel :=
  if (name =? "Vector Basics")%string
  then BasicsPanel VectorBasicsLesson.create_ui
  else if (name =? "Vector Addition & Subtraction")%string
  then AddSubPanel VectorAddSubLesson.create_ui
  else if (name =? "Vector Scaling")%string
  then ScalingPanel VectorScalingLesson.create_ui
  else if (name =? "Vector Magnitude & Direction")%string
  then MagnitudePanel VectorMagnitudeLesson.create_ui
  else EmptyPanel.

Definition show_lesson (name : string) (self : t) : t :=
  let frames := dict_each pack_forget (lesson_frames self) in
  let frames :=
    match dict_get name frames with
    | Some _ => frames
    | None =>
        dict_set name {| packed := false; panel := new_panel name |} frames
    end in
  {| lesson_frames := dict_at name pack frames |}.

(** [init_lessons] and the first [show_lesson] of [__init__]. *)
Definition init : t :=
  show_lesson "Vector Basics" {| lesson_frames := [] |}.

(** [reset_all], given the answer to its yes/no question. *)
Definition reset_all (answer : bool) (self : t) : t :=
  if answer then show_lesson (nth 0 lessons "") {| lesson_frames := [] |}
  else self.

(** [update_main_scroll]: the position given to the content window, from
    the width of the canvas and the requested width of the content. *)
Definition update_main_scroll (canvas_width content_width : Z) : Z * Z :=
  if (content_width <? canvas_width)%Z then
    let x_offset := ((canvas_width - content_width) / 2)%Z in
    (x_offset, 0%Z)
  else (0%Z, 0%Z).

End VectorLearningApp.

(** ** Observations used in the properties *)

Definition is_text (a : Artist) : bool :=
  match a with
  | Text _ _ _ => true
  | _ => false
  end.

(** The zipped vectors for which the 3D setup draws: those of norm above the
    threshold. *)
Definition above_3d (item : ndarray * string * text) : bool :=
  SMALL <? np.linalg.norm (fst (fst item)).

Definition above_2d (item : ndarray * string * text) : bool :=
  SMALL <? np.linalg.norm (np.upto 2 (fst (fst item))).

(** The zipped vectors on which the loop of a setup does not raise: those
    that are not drawn, and those that have the components which the drawing
    reads. *)
Definition fits_3d (item : ndarray * string * text) : bool :=
  negb (above_3d item) || (3 <=? List.length (fst (fst item)))%nat.

Definition fits_2d (item : ndarray * string * text) : bool :=
  negb (above_2d item) || (2 <=? List.length (fst (fst item)))%nat.

(** Everything of the axes but what is drawn on them. *)
Definition axes_frame (ax : Axes)
  : Projection * option (float * float) * option (float * float)
    * option (float * float) * option text * bool :=
  (projection ax, xlim ax, ylim ax, zlim ax, title ax, legend ax).

(** The list [l] with [x] at position [i]; [l] itself when [i] is out of
    range. *)
Fixpoint list_update {A} (i : nat) (x : A) (l : list A) : list A :=
  match l, i with
  | [], _ => []
  | _ :: r, O => x :: r
  | a :: r, S j => a :: list_update j x r
  end.

(** * Properties *)

(** ** The runtime on examples *)

(** The two constants are the values of the literals of the source. *)
Example small_is_1e_10 : CPython.parse_float "1e-10" = Some SMALL.
Proof. vm_compute. reflexivity. Qed.

Example offset_ratio_is_0_05 : CPython.parse_float "0.05" = Some OFFSET_RATIO.
Proof. vm_compute. reflexivity. Qed.

Example parse_float_accepts :
  map CPython.parse_float [" 2.5 "; "-3"; "1_000"; ".5e1"; "+inf"; "NaN"]
  = [Some 2.5; Some (-3); Some 1000; Some 5; Some infinity; Some nan].
Proof. vm_compute. reflexivity. Qed.

Example parse_float_rejects :
  map CPython.parse_float [""; "-"; "1e"; "1__0"; "2,5"; "0x10"; "1 2"; "."]
  = [None; None; None; None; None; None; None; None].
Proof. vm_compute. reflexivity. Qed.

Example strip_examples :
  map CPython.strip ["  4.5 "; " - "; "   "; "a b"] = ["4.5"; "-"; ""; "a b"].
Proof. vm_compute. reflexivity. Qed.

Example norm_3_4_12 : np.linalg.norm [3; 4; 12] = 13.
Proof. vm_compute. reflexivity. Qed.

(** The fused multiply-add rounds once: on 0.1 it gives the error of the
    rounded square, which the product followed by the sum loses. *)
Example fma_rounds_once :
  let x := 0x1.999999999999ap-4 in
  fma x x (- (x * x)) = -0x1.eb851eb851eb8p-61 /\ x * x + - (x * x) = 0.
Proof. split; vm_compute; reflexivity. Qed.

(** On (0.20215727169706416, 4.6, 6.2) the norm is one unit in the last place
    below the square root of the sum of the rounded squares: it reads 7.7227
    under the format [.4f], the other 7.7228. *)
Example norm_accumulates_fused :
  let x := 0x1.9e04a1b4b3272p-3 in
  let y := 0x1.2666666666666p+2 in
  let z := 0x1.8cccccccccccdp+2 in
  CPython.parse_float "0.20215727169706416" = Some x
  /\ CPython.parse_float "4.6" = Some y
  /\ CPython.parse_float "6.2" = Some z
  /\ np.linalg.norm [x; y; z] = 0x1.ee4189374bc6ap+2
  /\ PrimFloat.sqrt (x * x + y * y + z * z) = 0x1.ee4189374bc6bp+2.
Proof. repeat split; vm_compute; reflexivity. Qed.

(** Next to the threshold the rounding decides whether a vector is drawn:
    this one is, while the square root of the sum of the rounded squares is
    1e-10 itself. *)
Example norm_next_to_threshold :
  let x := 0x1.1e48b4cd2b20dp-34 in
  let y := 0x1.4ddee19811c80p-34 in
  (SMALL <? np.linalg.norm [x; y; 0]) = true
  /\ above_2d ([x; y; 0], PRIMARY_BLUE, [Lit "V"]) = true
  /\ PrimFloat.sqrt (x * x + y * y + 0 * 0) = SMALL.
Proof. repeat split; vm_compute; reflexivity. Qed.

(** ** The vector form *)

Section VectorInputFacts.
Context {rt : PyRuntime}.

Lemma fold_append_map {A B} (f : A -> B) (l : list A) (acc : list B) :
  fold_left (fun vec e => (vec ++ [f e])%list) l acc = (acc ++ map f l)%list.
Proof.
  revert acc. induction l as [|a l IH]; intros acc; simpl.
  - now rewrite app_nil_r.
  - rewrite IH, <- app_assoc. reflexivity.
Qed.

(** The loop of [get_vector] appends one component per entry. *)
Lemma get_vector_map (self : VectorInput.t) :
  VectorInput.get_vector self
  = map VectorInput.component (VectorInput.entries self).
Proof.
  unfold VectorInput.get_vector, np.array. now rewrite fold_append_map.
Qed.

Lemma retype_length (i : nat) (txt : string) (l : list string) :
  List.length (VectorInput.retype i txt l) = List.length l.
Proof.
  revert i. induction l as [|e l IH]; intros [|i]; simpl; auto.
Qed.

Lemma init_entries (label : string) (defaults : list Z) :
  VectorInput.entries (VectorInput.init label defaults)
  = map VectorInput.str (firstn 3 defaults).
Proof.
  unfold VectorInput.init, VectorInput.create_widgets.
  destruct defaults as [|d0 [|d1 [|d2 r]]]; reflexivity.
Qed.

(** The number of entries is an invariant of the form. *)
Lemma reachable_three (self : VectorInput.t) :
  VectorInput.reachable self -> List.length (VectorInput.entries self) = 3%nat.
Proof.
  induction 1 as [label defaults Hlen | self i txt _ IH | self _ IH].
  - rewrite init_entries, length_map, length_firstn. lia.
  - simpl. now rewrite retype_length.
  - simpl. now rewrite length_map.
Qed.

End VectorInputFacts.

(** C1: for every entry of a vector form, [get_vector] maps the stripped text
    of the entry to its component: 0.0 when the text is empty, is "-" or does
    not parse as a float, and the parsed float otherwise.  This holds at every
    position of the form, and [get_vector] is the one reader through which
    the four lessons obtain their vectors. *)
Theorem get_vector_component {rt : PyRuntime} (self : VectorInput.t)
    (i : nat) (e : string) :
  nth_error (VectorInput.entries self) i = Some e ->
  let v := py_strip e in
  (v = "" \/ v = "-" \/ py_float v = None ->
   nth_error (VectorInput.get_vector self) i = Some 0)
  /\ (forall x, v <> "" -> v <> "-" -> py_float v = Some x ->
      nth_error (VectorInput.get_vector self) i = Some x).
Proof.
  intros He v. rewrite get_vector_map, nth_error_map, He. simpl.
  unfold VectorInput.component. fold v. split.
  - intros [H | [H | H]].
    + rewrite H. reflexivity.
    + rewrite H. reflexivity.
    + rewrite H. now destruct ((v =? "")%string || (v =? "-")%string).
  - intros x Hempty Hminus Hx.
    apply String.eqb_neq in Hempty, Hminus.
    now rewrite Hempty, Hminus, Hx.
Qed.

Lemma get_vector_component_witness :
  nth_error
    (VectorInput.get_vector (rt := CPython.runtime)
       {| VectorInput.entries := [" 2.5 "; "-"; "1e"] |}) 0 = Some 2.5
  /\ nth_error
       (VectorInput.get_vector (rt := CPython.runtime)
          {| VectorInput.entries := [" 2.5 "; "-"; "1e"] |}) 2 = Some 0.
Proof.
  split.
  - refine (proj2 (get_vector_component (rt := CPython.runtime)
                     {| VectorInput.entries := [" 2.5 "; "-"; "1e"] |}
                     0 " 2.5 " _) 2.5 _ _ _).
    + reflexivity.
    + vm_compute. discriminate.
    + vm_compute. discriminate.
    + vm_compute. reflexivity.
  - refine (proj1 (get_vector_component (rt := CPython.runtime)
                     {| VectorInput.entries := [" 2.5 "; "-"; "1e"] |}
                     2 "1e" _) _).
    + reflexivity.
    + right. right. vm_compute. reflexivity.
Defined.

(** C9: whatever the three entries of a form hold, [get_vector] returns an
    array of exactly three float components, the one of the X entry first,
    then the one of the Y entry, then the one of the Z entry. *)
Theorem get_vector_three {rt : PyRuntime} (self : VectorInput.t) :
  VectorInput.reachable self ->
  exists ex ey ez,
    VectorInput.entries self = [ex; ey; ez]
    /\ VectorInput.get_vector self
       = [VectorInput.component ex; VectorInput.component ey;
          VectorInput.component ez]
    /\ List.length (VectorInput.get_vector self) = 3%nat.
Proof.
  intros Hr. apply reachable_three in Hr.
  rewrite get_vector_map.
  destruct (VectorInput.entries self) as [|ex [|ey [|ez [|e r]]]];
    try discriminate.
  exists ex, ey, ez. repeat split.
Qed.

Lemma get_vector_three_witness :
  exists ex ey ez,
    VectorInput.entries
      (VectorInput.edit 1 "7.5" (VectorInput.init "Vector V" [3; 4; 5]%Z))
    = [ex; ey; ez]
    /\ VectorInput.get_vector (rt := CPython.runtime)
         (VectorInput.edit 1 "7.5" (VectorInput.init "Vector V" [3; 4; 5]%Z))
       = [VectorInput.component (rt := CPython.runtime) ex;
          VectorInput.component (rt := CPython.runtime) ey;
          VectorInput.component (rt := CPython.runtime) ez]
    /\ List.length
         (VectorInput.get_vector (rt := CPython.runtime)
            (VectorInput.edit 1 "7.5"
               (VectorInput.init "Vector V" [3; 4; 5]%Z))) = 3%nat.
Proof.
  apply (get_vector_three (rt := CPython.runtime)).
  apply VectorInput.reach_edit. apply VectorInput.reach_init. simpl. lia.
Defined.

(** ** Comparisons of binary64 values *)

Lemma SFcompare_antisym (a b : spec_float) :
  SFcompare b a = option_map CompOpp (SFcompare a b).
Proof.
  destruct a as [sa | sa | | sa ma ea], b as [sb | sb | | sb mb eb];
    try destruct sa; try destruct sb; try reflexivity; simpl;
    rewrite (Z.compare_antisym ea eb); destruct (ea ?= eb)%Z; simpl;
    try reflexivity;
    change (Pos.compare_cont Eq mb ma) with (Pos.compare mb ma);
    change (Pos.compare_cont Eq ma mb) with (Pos.compare ma mb);
    rewrite (Pos.compare_antisym ma mb);
    destruct (Pos.compare ma mb); reflexivity.
Qed.

Lemma SFcompare_refl (a : spec_float) :
  a <> S754_nan -> SFcompare a a = Some Eq.
Proof.
  destruct a as [s | s | | s m e]; try destruct s; simpl; intros H;
    try reflexivity; try congruence;
    rewrite Z.compare_refl;
    change (Pos.compare_cont Eq m m) with (Pos.compare m m);
    now rewrite Pos.compare_refl.
Qed.

Lemma SFcompare_none (a b : spec_float) :
  SFcompare a b = None -> a = S754_nan \/ b = S754_nan.
Proof.
  destruct a as [sa | sa | | sa ma ea], b as [sb | sb | | sb mb eb];
    simpl; intros H; try discriminate; auto.
Qed.

Lemma is_nan_Prim2SF (x : float) :
  PrimFloat.is_nan x = true <-> Prim2SF x = S754_nan.
Proof.
  unfold PrimFloat.is_nan. rewrite FloatAxioms.eqb_spec. unfold SFeqb. split.
  - intros H. destruct (Prim2SF x) as [s | s | | s m e] eqn:E;
      try reflexivity;
      rewrite SFcompare_refl in H by discriminate; discriminate.
  - intros ->. reflexivity.
Qed.

(** [a <= b] rules out [b < a]. *)
Lemma leb_not_ltb (a b : float) : (a <=? b) = true -> (b <? a) = false.
Proof.
  rewrite FloatAxioms.leb_spec, FloatAxioms.ltb_spec. unfold SFleb, SFltb.
  rewrite (SFcompare_antisym (Prim2SF a) (Prim2SF b)).
  destruct (SFcompare (Prim2SF a) (Prim2SF b)) as [[]|]; simpl; congruence.
Qed.

(** Nothing is below a NaN. *)
Lemma nan_not_ltb (a b : float) : PrimFloat.is_nan a = true -> (b <? a) = false.
Proof.
  intros H. apply is_nan_Prim2SF in H.
  rewrite FloatAxioms.ltb_spec, H. unfold SFltb.
  now destruct (Prim2SF b).
Qed.

(** A number that is not above [b] is at most [b], unless one of the two is
    a NaN. *)
Lemma not_ltb_cases (a b : float) :
  (b <? a) = false ->
  (a <=? b) = true \/ PrimFloat.is_nan a = true \/ PrimFloat.is_nan b = true.
Proof.
  rewrite FloatAxioms.ltb_spec, FloatAxioms.leb_spec, !is_nan_Prim2SF. unfold SFleb, SFltb.
  rewrite (SFcompare_antisym (Prim2SF b) (Prim2SF a)).
  destruct (SFcompare (Prim2SF b) (Prim2SF a)) as [[]|] eqn:E; simpl;
    intros H; try discriminate; auto.
  apply SFcompare_none in E. tauto.
Qed.

(** The two zeros are the only numbers equal to zero. *)
Lemma eqb_zero_cases (x : float) : (x =? 0) = true -> x = 0 \/ x = (-0).
Proof.
  rewrite FloatAxioms.eqb_spec. unfold SFeqb. intros H.
  rewrite <- (SF2Prim_Prim2SF x).
  destruct (Prim2SF x) as [[] | s | | s m e]; try discriminate.
  - now right.
  - now left.
  - simpl in H. destruct s; discriminate.
  - simpl in H. destruct s; discriminate.
Qed.

(** A number and its opposite are finite together. *)
Lemma is_finite_opp (x : float) :
  PrimFloat.is_finite (- x) = PrimFloat.is_finite x.
Proof.
  assert (Hnan : PrimFloat.is_nan (- x) = PrimFloat.is_nan x).
  { unfold PrimFloat.is_nan.
    rewrite !FloatAxioms.eqb_spec, FloatAxioms.opp_spec. unfold SFeqb.
    destruct (Prim2SF x) as [s | s | | s m e]; try reflexivity;
      cbn [SFopp]; rewrite !SFcompare_refl by discriminate; reflexivity. }
  assert (Habs : abs (- x) = abs x).
  { apply Prim2SF_inj.
    rewrite !FloatAxioms.abs_spec, FloatAxioms.opp_spec.
    now destruct (Prim2SF x). }
  unfold PrimFloat.is_finite, PrimFloat.is_infinity. now rewrite Hnan, Habs.
Qed.

(** ** The plot renderer *)

Lemma add_artists_nil (ax : Axes) : add_artists [] ax = ax.
Proof. destruct ax. unfold add_artists. simpl. now rewrite app_nil_r. Qed.

Lemma add_artists_app (l1 l2 : list Artist) (ax : Axes) :
  add_artists l2 (add_artists l1 ax) = add_artists (l1 ++ l2) ax.
Proof. unfold add_artists. simpl. now rewrite app_assoc. Qed.

Lemma zip3_Forall {A B C} (P : A -> Prop) (a : list A) (b : list B)
    (c : list C) :
  Forall P a -> Forall (fun it => P (fst (fst it))) (zip3 a b c).
Proof.
  intros Ha. rewrite Forall_forall in *. intros [[x y] z] Hin. simpl.
  apply Ha. unfold zip3 in Hin.
  apply in_combine_l in Hin. now apply in_combine_l in Hin.
Qed.

Lemma valid_limit_opp (l : float) :
  PlotManager.valid_limit (- l) = PlotManager.valid_limit l.
Proof. unfold PlotManager.valid_limit. now rewrite is_finite_opp. Qed.

(** The body of the 3D loop draws what [drawn_3d] describes; it raises, before
    it has drawn anything, on a vector that is to be drawn and has fewer than
    three components. *)
Lemma arrow_3d_run (offset : float) (item : ndarray * string * text)
    (ax : Axes) :
  PlotManager.arrow_3d offset item ax
  = if fits_3d item
    then (Val tt, add_artists (drawn_3d offset item) ax)
    else (Exc IndexError, ax).
Proof.
  destruct item as [[vec color] label].
  unfold PlotManager.arrow_3d, drawn_3d, fits_3d, above_3d, when.
  cbn [fst snd].
  destruct (SMALL <? np.linalg.norm vec).
  - destruct vec as [|v0 [|v1 [|v2 r]]]; try reflexivity.
    cbn. unfold PlotManager.draw, modify, add_artists. cbn.
    now rewrite <- app_assoc.
  - unfold ret. cbn. now rewrite add_artists_nil.
Qed.

Lemma arrow_2d_run (offset : float) (item : ndarray * string * text)
    (ax : Axes) :
  PlotManager.arrow_2d offset item ax
  = if fits_2d item
    then (Val tt, add_artists (drawn_2d offset item) ax)
    else (Exc IndexError, ax).
Proof.
  destruct item as [[vec color] label].
  unfold PlotManager.arrow_2d, drawn_2d, fits_2d, above_2d, when.
  cbn [fst snd].
  destruct (SMALL <? np.linalg.norm (np.upto 2 vec)).
  - destruct vec as [|v0 [|v1 r]]; try reflexivity.
    cbn. unfold PlotManager.draw, modify, add_artists. cbn.
    now rewrite <- app_assoc.
  - unfold ret. cbn. now rewrite add_artists_nil.
Qed.

(** A loop whose body behaves as the two above: it returns exactly when no
    item makes the body raise, and has then drawn item after item. *)
Lemma for_each_run {A} (body : A -> M Axes unit) (fits : A -> bool)
    (drawn : A -> list Artist) (items : list A) :
  (forall item ax,
     body item ax = if fits item
                    then (Val tt, add_artists (drawn item) ax)
                    else (Exc IndexError, ax)) ->
  forall ax,
    fst (for_each items body ax)
    = (if forallb fits items then Val tt else Exc IndexError)
    /\ (forallb fits items = true ->
        snd (for_each items body ax) = add_artists (flat_map drawn items) ax).
Proof.
  intros Hbody. induction items as [|item items IH]; intros ax.
  - split; [reflexivity|]. intros _. simpl. now rewrite add_artists_nil.
  - cbn [for_each forallb flat_map]. unfold bind. rewrite Hbody.
    destruct (fits item); cbn [andb].
    + destruct (IH (add_artists (drawn item) ax)) as [Hr Hs].
      split; [exact Hr|]. intros Hall.
      now rewrite Hs, add_artists_app.
    + split; [reflexivity | discriminate].
Qed.

Lemma fits_of_length (n : nat) (fits : ndarray * string * text -> bool)
    (vectors : list ndarray) (colors : list string) (labels : list text) :
  (forall it, (n <= List.length (fst (fst it)))%nat -> fits it = true) ->
  Forall (fun vec => (n <= List.length vec)%nat) vectors ->
  forallb fits (zip3 vectors colors labels) = true.
Proof.
  intros Hfits Hlen. apply forallb_forall. intros it Hin. apply Hfits.
  pose proof (zip3_Forall (fun vec => (n <= List.length vec)%nat)
                vectors colors labels Hlen) as H.
  rewrite Forall_forall in H. now apply H.
Qed.

Lemma fits_3d_of_length (it : ndarray * string * text) :
  (3 <= List.length (fst (fst it)))%nat -> fits_3d it = true.
Proof.
  intros H. unfold fits_3d. apply Nat.leb_le in H. rewrite H.
  apply orb_true_r.
Qed.

Lemma fits_2d_of_length (it : ndarray * string * text) :
  (2 <= List.length (fst (fst it)))%nat -> fits_2d it = true.
Proof.
  intros H. unfold fits_2d. apply Nat.leb_le in H. rewrite H.
  apply orb_true_r.
Qed.

(** A setup, once the limits have been checked: the loop runs on the axes
    that have the limits and the origin mark. *)
Lemma setup_3d_plot_eq vectors colors labels limits (ax : Axes) :
  PlotManager.setup_3d_plot vectors colors labels limits ax
  = if PrimFloat.is_finite limits
    then for_each (zip3 vectors colors labels)
           (PlotManager.arrow_3d (limits * OFFSET_RATIO))
           {| projection := projection ax;
              xlim := Some (- limits, limits); ylim := Some (- limits, limits);
              zlim := Some (- limits, limits);
              artists := (artists ax ++ [Scatter [0; 0; 0] "Origin"])%list;
              title := title ax; legend := legend ax |}
    else (Exc ValueError, ax).
Proof.
  unfold PlotManager.setup_3d_plot, PlotManager.set_xlim,
    PlotManager.set_ylim, PlotManager.set_zlim, PlotManager.draw, bind, eval,
    modify.
  rewrite valid_limit_opp. unfold PlotManager.valid_limit.
  destruct (PrimFloat.is_finite limits); reflexivity.
Qed.

Lemma setup_2d_plot_eq vectors colors labels limits (ax : Axes) :
  PlotManager.setup_2d_plot vectors colors labels limits ax
  = if PrimFloat.is_finite limits
    then for_each (zip3 vectors colors labels)
           (PlotManager.arrow_2d (limits * OFFSET_RATIO))
           {| projection := projection ax;
              xlim := Some (- limits, limits); ylim := Some (- limits, limits);
              zlim := zlim ax;
              artists := (artists ax
                          ++ [Scatter [0; 0] "Origin"; AxHLine 0; AxVLine 0])%list;
              title := title ax; legend := legend ax |}
    else (Exc ValueError, ax).
Proof.
  unfold PlotManager.setup_2d_plot, PlotManager.set_xlim,
    PlotManager.set_ylim, PlotManager.draw, bind, eval, modify.
  rewrite valid_limit_opp. unfold PlotManager.valid_limit.
  destruct (PrimFloat.is_finite limits); [|reflexivity].
  cbn. now rewrite <- !app_assoc.
Qed.

(** How a setup ends. *)
Lemma setup_3d_plot_result vectors colors labels limits (ax : Axes) :
  fst (PlotManager.setup_3d_plot vectors colors labels limits ax)
  = if PrimFloat.is_finite limits
    then if forallb fits_3d (zip3 vectors colors labels)
         then Val tt else Exc IndexError
    else Exc ValueError.
Proof.
  rewrite setup_3d_plot_eq. destruct (PrimFloat.is_finite limits);
    [|reflexivity].
  apply (for_each_run _ fits_3d (drawn_3d (limits * OFFSET_RATIO))).
  apply arrow_3d_run.
Qed.

Lemma setup_2d_plot_result vectors colors labels limits (ax : Axes) :
  fst (PlotManager.setup_2d_plot vectors colors labels limits ax)
  = if PrimFloat.is_finite limits
    then if forallb fits_2d (zip3 vectors colors labels)
         then Val tt else Exc IndexError
    else Exc ValueError.
Proof.
  rewrite setup_2d_plot_eq. destruct (PrimFloat.is_finite limits);
    [|reflexivity].
  apply (for_each_run _ fits_2d (drawn_2d (limits * OFFSET_RATIO))).
  apply arrow_2d_run.
Qed.

(** The axes that a setup leaves when it returns. *)
Lemma setup_3d_plot_state vectors colors labels limits (ax : Axes) :
  fst (PlotManager.setup_3d_plot vectors colors labels limits ax) = Val tt ->
  snd (PlotManager.setup_3d_plot vectors colors labels limits ax)
  = {| projection := projection ax;
       xlim := Some (- limits, limits); ylim := Some (- limits, limits);
       zlim := Some (- limits, limits);
       artists :=
         (artists ax
          ++ Scatter [0; 0; 0] "Origin"
             :: flat_map (drawn_3d (limits * OFFSET_RATIO))
                  (zip3 vectors colors labels))%list;
       title := title ax; legend := legend ax |}.
Proof.
  rewrite setup_3d_plot_result, setup_3d_plot_eq.
  destruct (PrimFloat.is_finite limits); [|discriminate].
  destruct (forallb fits_3d (zip3 vectors colors labels)) eqn:E;
    [|discriminate].
  intros _.
  rewrite (proj2 (for_each_run _ fits_3d (drawn_3d (limits * OFFSET_RATIO))
                    (zip3 vectors colors labels)
                    (arrow_3d_run (limits * OFFSET_RATIO)) _) E).
  unfold add_artists. cbn. now rewrite <- app_assoc.
Qed.

Lemma setup_2d_plot_state vectors colors labels limits (ax : Axes) :
  fst (PlotManager.setup_2d_plot vectors colors labels limits ax) = Val tt ->
  snd (PlotManager.setup_2d_plot vectors colors labels limits ax)
  = {| projection := projection ax;
       xlim := Some (- limits, limits); ylim := Some (- limits, limits);
       zlim := zlim ax;
       artists :=
         (artists ax
          ++ Scatter [0; 0] "Origin" :: AxHLine 0 :: AxVLine 0
             :: flat_map (drawn_2d (limits * OFFSET_RATIO))
                  (zip3 vectors colors labels))%list;
       title := title ax; legend := legend ax |}.
Proof.
  rewrite setup_2d_plot_result, setup_2d_plot_eq.
  destruct (PrimFloat.is_finite limits); [|discriminate].
  destruct (forallb fits_2d (zip3 vectors colors labels)) eqn:E;
    [|discriminate].
  intros _.
  rewrite (proj2 (for_each_run _ fits_2d (drawn_2d (limits * OFFSET_RATIO))
                    (zip3 vectors colors labels)
                    (arrow_2d_run (limits * OFFSET_RATIO)) _) E).
  unfold add_artists. cbn. now rewrite <- !app_assoc.
Qed.

(** A setup returns on finite limits and vectors that are long enough. *)
Lemma setup_3d_plot_returns vectors colors labels limits (ax : Axes) :
  PrimFloat.is_finite limits = true ->
  Forall (fun vec => (3 <= List.length vec)%nat) vectors ->
  fst (PlotManager.setup_3d_plot vectors colors labels limits ax) = Val tt.
Proof.
  intros Hfin Hlen. rewrite setup_3d_plot_result, Hfin.
  now rewrite (fits_of_length 3 fits_3d _ _ _ fits_3d_of_length Hlen).
Qed.

Lemma setup_2d_plot_returns vectors colors labels limits (ax : Axes) :
  PrimFloat.is_finite limits = true ->
  Forall (fun vec => (2 <= List.length vec)%nat) vectors ->
  fst (PlotManager.setup_2d_plot vectors colors labels limits ax) = Val tt.
Proof.
  intros Hfin Hlen. rewrite setup_2d_plot_result, Hfin.
  now rewrite (fits_of_length 2 fits_2d _ _ _ fits_2d_of_length Hlen).
Qed.

Lemma keeps_bind {S F A B} (f : S -> F) (m : M S A) (k : A -> M S B) :
  keeps f m -> (forall a, keeps f (k a)) -> keeps f (bind m k).
Proof.
  intros Hm Hk s. unfold bind. specialize (Hm s).
  destruct (m s) as [[a | e] s']; simpl in *.
  - now rewrite Hk.
  - assumption.
Qed.

Lemma keeps_for_each {S F A} (f : S -> F) (l : list A) (body : A -> M S unit) :
  (forall x, keeps f (body x)) -> keeps f (for_each l body).
Proof.
  intros Hbody. induction l as [|x l IH]; simpl.
  - intros s. reflexivity.
  - apply keeps_bind; auto.
Qed.

Lemma keeps_eval {S F A} (f : S -> F) (r : res A) : keeps f (@eval S A r).
Proof. intros s. reflexivity. Qed.

Lemma keeps_when {S F} (f : S -> F) (c : bool) (body : M S unit) :
  keeps f body -> keeps f (when c body).
Proof. intros H. destruct c; simpl; [assumption | intros s; reflexivity]. Qed.

Lemma draw_keeps_projection (a : Artist) :
  keeps projection (PlotManager.draw a).
Proof. intros ax. reflexivity. Qed.

Create HintDb keeps.
#[local] Hint Resolve keeps_eval draw_keeps_projection : keeps.

Ltac keeps_step :=
  first [ apply keeps_when | apply keeps_for_each; intros
        | apply keeps_bind; [| intros] | solve [auto with keeps]
        | solve [intros ?; reflexivity] ].

(** Neither setup changes the projection of the axes it is given, however it
    ends. *)
Lemma setup_3d_keeps_projection vectors colors labels limits :
  keeps projection (PlotManager.setup_3d_plot vectors colors labels limits).
Proof.
  unfold PlotManager.setup_3d_plot, PlotManager.set_xlim,
    PlotManager.set_ylim, PlotManager.set_zlim. repeat keeps_step.
  destruct x as [[vec color] label]. unfold PlotManager.arrow_3d.
  repeat keeps_step.
Qed.

Lemma setup_2d_keeps_projection vectors colors labels limits :
  keeps projection (PlotManager.setup_2d_plot vectors colors labels limits).
Proof.
  unfold PlotManager.setup_2d_plot, PlotManager.set_xlim,
    PlotManager.set_ylim. repeat keeps_step.
  destruct x as [[vec color] label]. unfold PlotManager.arrow_2d.
  repeat keeps_step.
Qed.


Lemma chosen_setup_projection vectors colors labels limits :
  projection (snd (chosen_setup vectors colors labels limits))
  = if PlotManager.needs_3d vectors then Projection3D else Rectilinear.
Proof.
  unfold chosen_setup. destruct (PlotManager.needs_3d vectors).
  - now rewrite setup_3d_keeps_projection.
  - now rewrite setup_2d_keeps_projection.
Qed.

Lemma chosen_setup_returns vectors colors labels limits :
  PrimFloat.is_finite limits = true ->
  Forall (fun vec => (3 <= List.length vec)%nat) vectors ->
  fst (chosen_setup vectors colors labels limits) = Val tt.
Proof.
  intros Hfin Hlen. unfold chosen_setup.
  destruct (PlotManager.needs_3d vectors).
  - now apply setup_3d_plot_returns.
  - apply setup_2d_plot_returns; [assumption|].
    eapply Forall_impl; [|exact Hlen]. simpl. intros; lia.
Qed.

Section PlotFacts.
Context {mpl : Matplotlib}.

(** [plot_vectors], statement by statement: the frame ends with a canvas
    showing the decorated axes, or, when the setup or the drawing raises, with
    the two empty frames only. *)
Lemma plot_vectors_run vectors colors labels heading limits show_toolbar tab :
  PlotManager.plot_vectors vectors colors labels heading limits show_toolbar
    tab
  = match chosen_setup vectors colors labels limits with
    | (Val _, ax) =>
        match draw_plot (figure_of vectors heading ax) with
        | Val _ =>
            (Val tt,
             {| plot_container := true; plot_frame := true;
                canvas_widget := Some (figure_of vectors heading ax);
                toolbar := show_toolbar |})
        | Exc e =>
            (Exc e,
             {| plot_container := true; plot_frame := true;
                canvas_widget := None; toolbar := false |})
        end
    | (Exc e, _) =>
        (Exc e,
         {| plot_container := true; plot_frame := true; canvas_widget := None;
            toolbar := false |})
    end.
Proof.
  unfold PlotManager.plot_vectors, chosen_setup, figure_of,
    PlotManager.on_subplot, PlotManager.clear_plot, bind, modify, eval, when,
    ret.
  cbn [fst snd plot_container plot_frame canvas_widget toolbar].
  destruct (PlotManager.needs_3d vectors).
  - destruct (PlotManager.setup_3d_plot _ _ _ _ _) as [[[] | e] ax];
      [|reflexivity].
    destruct (draw_plot _) as [[] | e]; [destruct show_toolbar|];
      reflexivity.
  - destruct (PlotManager.setup_2d_plot _ _ _ _ _) as [[[] | e] ax];
      [|reflexivity].
    destruct (draw_plot _) as [[] | e]; [destruct show_toolbar|];
      reflexivity.
Qed.

(** On finite limits and vectors of three components, [plot_vectors] ends
    as the drawing of its figure ends. *)
Lemma plot_vectors_result vectors colors labels heading limits show_toolbar
    tab :
  PrimFloat.is_finite limits = true ->
  Forall (fun vec => (3 <= List.length vec)%nat) vectors ->
  fst (PlotManager.plot_vectors vectors colors labels heading limits
         show_toolbar tab)
  = draw_plot (figure_of vectors heading
                 (snd (chosen_setup vectors colors labels limits))).
Proof.
  intros Hfin Hlen. rewrite plot_vectors_run.
  pose proof (chosen_setup_returns vectors colors labels limits Hfin Hlen)
    as H.
  destruct (chosen_setup vectors colors labels limits) as [[[] | e] ax];
    [|discriminate].
  cbn [snd]. now destruct (draw_plot _) as [[] | e].
Qed.

End PlotFacts.



(** C7, as the code has it: a setup that returns has drawn, for every vector
    that [zip] pairs with a color and a label, in the order of the list, one
    arrow from the origin carrying the label and then one text with the label
    and the coordinates, provided the norm of the vector (of its first two
    components in the 2D setup) exceeds 1e-10; it has drawn nothing for a
    vector whose norm does not.  Nothing else is drawn but the origin mark
    and, in 2D, the two axis lines.  A setup returns when the limits are
    finite and every vector has three components (two for the 2D setup). *)
Theorem arrows_drawn (vectors : list ndarray) (colors : list string)
    (labels : list text) (limits : float) (ax : Axes) :
  (forall ax',
     PlotManager.setup_3d_plot vectors colors labels limits ax = (Val tt, ax')
     -> artists ax'
        = (artists ax
           ++ Scatter [0; 0; 0] "Origin"
              :: flat_map (drawn_3d (limits * OFFSET_RATIO))
                   (zip3 vectors colors labels))%list)
  /\ (forall ax',
        PlotManager.setup_2d_plot vectors colors labels limits ax
        = (Val tt, ax')
        -> artists ax'
           = (artists ax
              ++ Scatter [0; 0] "Origin" :: AxHLine 0 :: AxVLine 0
                 :: flat_map (drawn_2d (limits * OFFSET_RATIO))
                      (zip3 vectors colors labels))%list)
  /\ (PrimFloat.is_finite limits = true ->
      Forall (fun vec => (3 <= List.length vec)%nat) vectors ->
      fst (PlotManager.setup_3d_plot vectors colors labels limits ax)
      = Val tt)
  /\ (PrimFloat.is_finite limits = true ->
      Forall (fun vec => (2 <= List.length vec)%nat) vectors ->
      fst (PlotManager.setup_2d_plot vectors colors labels limits ax)
      = Val tt).
Proof.
  split; [|split; [|split]].
  - intros ax' E.
    pose proof (setup_3d_plot_state vectors colors labels limits ax) as H.
    rewrite E in H. cbn [fst snd] in H. now rewrite H.
  - intros ax' E.
    pose proof (setup_2d_plot_state vectors colors labels limits ax) as H.
    rewrite E in H. cbn [fst snd] in H. now rewrite H.
  - apply setup_3d_plot_returns.
  - apply setup_2d_plot_returns.
Qed.

Lemma arrows_drawn_witness :
  artists
    (snd (PlotManager.setup_3d_plot [[3; 4; 2]; [0; 0; 0]]
            [PRIMARY_BLUE; PRIMARY_RED] [[Lit "A"]; [Lit "B"]] 10
            (PlotManager.add_subplot Projection3D)))
  = [Scatter [0; 0; 0] "Origin";
     Quiver [0; 0; 0] [3; 4; 2] PRIMARY_BLUE [Lit "A"];
     Text [3.5; 4.5; 2.5]
       [Lit "A"; Lit nl; Lit "("; Fixed 2 3; Lit ", "; Fixed 2 4;
        Lit ", "; Fixed 2 2; Lit ")"] PRIMARY_BLUE].
Proof.
  rewrite (proj1 (arrows_drawn [[3; 4; 2]; [0; 0; 0]]
                    [PRIMARY_BLUE; PRIMARY_RED] [[Lit "A"]; [Lit "B"]] 10
                    (PlotManager.add_subplot Projection3D))
             (snd (PlotManager.setup_3d_plot [[3; 4; 2]; [0; 0; 0]]
                     [PRIMARY_BLUE; PRIMARY_RED] [[Lit "A"]; [Lit "B"]] 10
                     (PlotManager.add_subplot Projection3D)))).
  - vm_compute. reflexivity.
  - vm_compute. reflexivity.
Defined.

(** C7, as the claim words it, fails on a zero vector: the 2D setup draws no
    arrow at all for the one vector (0, 0, 0), and the 3D setup draws a
    single arrow for the two vectors (0, 0, 0) and (0, 0, 1). *)
Lemma zero_vector_no_arrow :
  filter is_quiver
    (artists
       (snd (PlotManager.setup_2d_plot [[0; 0; 0]] [PRIMARY_BLUE] [[Lit "V"]]
               10 (PlotManager.add_subplot Rectilinear)))) = []
  /\ filter is_quiver
       (artists
          (snd (PlotManager.setup_3d_plot [[0; 0; 0]; [0; 0; 1]]
                  [PRIMARY_BLUE; PRIMARY_RED] [[Lit "A"]; [Lit "B"]]
                  10 (PlotManager.add_subplot Projection3D))))
     = [Quiver [0; 0; 0] [0; 0; 1] PRIMARY_RED [Lit "B"]].
Proof. split; vm_compute; reflexivity. Qed.

(** ** The lessons *)

(** Runs the [show_info] met in the goal on vectors of three components, up
    to the drawing of the formula, and takes both outcomes of the drawing. *)
Ltac unfold_info :=
  unfold on_new_frame, render_formula, bind, eval, pack, modify, np.getitem;
  cbn [nth_error app fst snd].

Ltac run_info := unfold_info; destruct (draw_formula _ _) as [[] | ?].

(** The label is among the items of the panel. *)
Ltac shown := eexists; split; [reflexivity|]; simpl; auto 6.

(** C3: for the triples A and B read from the two forms, [compute] produces
    the componentwise sum A + B when the operation is "Add" and the
    componentwise difference A - B when it is "Subtract": that vector is the
    third one handed to the plot and, once the plot has been created, the one
    shown as the result.  [compute] ends as the call of [plot_vectors] when
    that call raises, and as the drawing of the formula otherwise. *)
Theorem addsub_compute {rt : PyRuntime} {mpl : Matplotlib}
    (self : VectorAddSubLesson.t) (a0 a1 a2 b0 b1 b2 : float) :
  VectorInput.get_vector (VectorAddSubLesson.vector_a self) = [a0; a1; a2] ->
  VectorInput.get_vector (VectorAddSubLesson.vector_b self) = [b0; b1; b2] ->
  forall (op : string) (r0 r1 r2 : float),
    VectorAddSubLesson.op_var self = op ->
    (op = "Add" /\ [r0; r1; r2] = [a0 + b0; a1 + b1; a2 + b2])
    \/ (op = "Subtract" /\ [r0; r1; r2] = [a0 - b0; a1 - b1; a2 - b2]) ->
    let plotted :=
      PlotManager.plot_vectors
        [[a0; a1; a2]; [b0; b1; b2]; [r0; r1; r2]]
        [PRIMARY_BLUE; PRIMARY_RED; PRIMARY_GREEN]
        [[Lit "A"]; [Lit "B"]; [Lit "Result"]]
        [Lit "Vector "; Lit op; Lit "ition"] 12 true
        (VectorAddSubLesson.parent self) in
    VectorAddSubLesson.parent (snd (VectorAddSubLesson.compute self))
    = snd plotted
    /\ (forall e, fst plotted = Exc e ->
        VectorAddSubLesson.compute self
        = (Exc e, VectorAddSubLesson.with_parent (snd plotted) self))
    /\ (fst plotted = Val tt ->
        shows_triple
          (VectorAddSubLesson.info_frame
             (snd (VectorAddSubLesson.compute self)))
          "Result = (" r0 r1 r2
        /\ fst (VectorAddSubLesson.compute self)
           = draw_formula 12
               (VectorAddSubLesson.formula a0 a1 a2 b0 b1 b2 r0 r1 r2 op)).
Proof.
  intros Ha Hb op r0 r1 r2 Hop Hcase plotted.
  assert (Hres : (if (op =? "Add")%string
                  then np.add [a0; a1; a2] [b0; b1; b2]
                  else np.subtract [a0; a1; a2] [b0; b1; b2])
                 = Val [r0; r1; r2]).
  { destruct Hcase as [[-> ->] | [-> ->]]; reflexivity. }
  unfold VectorAddSubLesson.compute, bind, gets, eval, on_field.
  rewrite Ha, Hb, Hop, Hres. fold plotted.
  destruct plotted as [[[] | e] tab']; cbn [fst snd].
  - unfold VectorAddSubLesson.show_info. run_info.
    + split; [reflexivity|]. split; [discriminate|]. intros _.
      split; [shown | reflexivity].
    + split; [reflexivity|]. split; [discriminate|]. intros _.
      split; [shown | reflexivity].
  - split; [reflexivity|]. split; [|discriminate].
    intros e' H. now injection H as <-.
Qed.

Lemma addsub_compute_witness :
  shows_triple
    (VectorAddSubLesson.info_frame
       (snd (VectorAddSubLesson.compute (rt := CPython.runtime)
               (mpl := draws_all)
               (VectorAddSubLesson.choose "Subtract"
                  VectorAddSubLesson.create_ui))))
    "Result = (" 2 (-1) 2
  /\ fst (VectorAddSubLesson.compute (rt := CPython.runtime)
            (mpl := draws_all)
            (VectorAddSubLesson.choose "Subtract"
               VectorAddSubLesson.create_ui))
     = Val tt.
Proof.
  refine (proj2 (proj2
            (addsub_compute (rt := CPython.runtime) (mpl := draws_all)
               (VectorAddSubLesson.choose "Subtract"
                  VectorAddSubLesson.create_ui)
               3 2 1 1 3 (-1) _ _ "Subtract" 2 (-1) 2 _ _)) _).
  - vm_compute. reflexivity.
  - vm_compute. reflexivity.
  - reflexivity.
  - right. split; [reflexivity | vm_compute; reflexivity].
  - vm_compute. reflexivity.
Defined.

(** C4: for the triple V read from the form and a scalar text that parses as
    the float k, [compute] produces the vector whose components are k times
    those of V: that vector is the second one handed to the plot and, once
    the plot has been created, the one shown as the scaled vector.  No dialog
    is shown.  [compute] ends as the call of [plot_vectors] when that call
    raises, and as the drawing of the formula otherwise. *)
Theorem scaling_compute {rt : PyRuntime} {mpl : Matplotlib}
    (self : VectorScalingLesson.t) (x y z k : float) :
  VectorInput.get_vector (VectorScalingLesson.vector_input self) = [x; y; z] ->
  py_float (VectorScalingLesson.scalar_entry self) = Some k ->
  let plotted :=
    PlotManager.plot_vectors
      [[x; y; z]; [k * x; k * y; k * z]]
      [PRIMARY_BLUE; PRIMARY_GREEN]
      [[Lit "V"]; [Repr k; Lit "·V"]]
      [Lit "Vector Scaling (k="; Repr k; Lit ")"] 12 true
      (VectorScalingLesson.parent self) in
  fst (VectorScalingLesson.compute self) = []
  /\ VectorScalingLesson.parent (snd (snd (VectorScalingLesson.compute self)))
     = snd plotted
  /\ (forall e, fst plotted = Exc e ->
      snd (VectorScalingLesson.compute self)
      = (Exc e, VectorScalingLesson.with_parent (snd plotted) self))
  /\ (fst plotted = Val tt ->
      shows_triple
        (VectorScalingLesson.info_frame
           (snd (snd (VectorScalingLesson.compute self))))
        "Scaled Vector k·V = (" (k * x) (k * y) (k * z)
      /\ fst (snd (VectorScalingLesson.compute self))
         = draw_formula 12
             (VectorScalingLesson.formula k x y z (k * x) (k * y) (k * z))).
Proof.
  intros Hv Hk plotted.
  unfold VectorScalingLesson.compute. rewrite Hv, Hk.
  unfold VectorScalingLesson.scale_and_show, bind, on_field.
  cbn [np.multiply map fst snd]. fold plotted.
  split; [reflexivity|].
  destruct plotted as [[[] | e] tab']; cbn [fst snd].
  - unfold VectorScalingLesson.show_info. run_info.
    + split; [reflexivity|]. split; [discriminate|]. intros _.
      split; [shown | reflexivity].
    + split; [reflexivity|]. split; [discriminate|]. intros _.
      split; [shown | reflexivity].
  - split; [reflexivity|]. split; [|discriminate].
    intros e' H. now injection H as <-.
Qed.

Lemma scaling_compute_witness :
  shows_triple
    (VectorScalingLesson.info_frame
       (snd (snd (VectorScalingLesson.compute (rt := CPython.runtime)
                    (mpl := draws_all)
                    (VectorScalingLesson.edit_scalar " -1.5"
                       VectorScalingLesson.create_ui)))))
    "Scaled Vector k·V = (" (-1.5 * 2) (-1.5 * 3) (-1.5 * 1)
  /\ fst (snd (VectorScalingLesson.compute (rt := CPython.runtime)
                 (mpl := draws_all)
                 (VectorScalingLesson.edit_scalar " -1.5"
                    VectorScalingLesson.create_ui)))
     = Val tt.
Proof.
  refine (proj2 (proj2 (proj2
            (scaling_compute (rt := CPython.runtime) (mpl := draws_all)
               (VectorScalingLesson.edit_scalar " -1.5"
                  VectorScalingLesson.create_ui)
               2 3 1 (-1.5) _ _))) _).
  - vm_compute. reflexivity.
  - vm_compute. reflexivity.
  - vm_compute. reflexivity.
Defined.

(** C8: [compute] shows the error dialog when the scalar text does not parse
    as a float; when it parses, no dialog is shown and the computation
    proceeds with the parsed scalar.  A dialog is shown if and only if the
    text does not parse. *)
Theorem dialog_iff_unparsable {rt : PyRuntime} {mpl : Matplotlib}
    (self : VectorScalingLesson.t) :
  (py_float (VectorScalingLesson.scalar_entry self) = None ->
   fst (VectorScalingLesson.compute self)
   = [showerror "Invalid Input" "Please enter a valid scalar."])
  /\ (forall k,
        py_float (VectorScalingLesson.scalar_entry self) = Some k ->
        fst (VectorScalingLesson.compute self) = []
        /\ snd (VectorScalingLesson.compute self)
           = VectorScalingLesson.scale_and_show
               (VectorInput.get_vector (VectorScalingLesson.vector_input self))
               k self)
  /\ (fst (VectorScalingLesson.compute self) <> []
      <-> py_float (VectorScalingLesson.scalar_entry self) = None).
Proof.
  unfold VectorScalingLesson.compute.
  destruct (py_float (VectorScalingLesson.scalar_entry self)) as [k|];
    simpl; repeat split; try discriminate; try congruence.
Qed.

Lemma dialog_iff_unparsable_witness :
  fst (VectorScalingLesson.compute (rt := CPython.runtime) (mpl := draws_all)
         (VectorScalingLesson.edit_scalar "2,5" VectorScalingLesson.create_ui))
  = [showerror "Invalid Input" "Please enter a valid scalar."]
  /\ fst (VectorScalingLesson.compute (rt := CPython.runtime)
            (mpl := draws_all)
            (VectorScalingLesson.edit_scalar "2.5"
               VectorScalingLesson.create_ui)) = [].
Proof.
  split.
  - apply (proj1 (dialog_iff_unparsable (rt := CPython.runtime)
                    (mpl := draws_all)
                    (VectorScalingLesson.edit_scalar "2,5"
                       VectorScalingLesson.create_ui))).
    vm_compute. reflexivity.
  - apply (proj1 (proj2 (dialog_iff_unparsable (rt := CPython.runtime)
                           (mpl := draws_all)
                           (VectorScalingLesson.edit_scalar "2.5"
                              VectorScalingLesson.create_ui))) 2.5).
    vm_compute. reflexivity.
Defined.

(** C10: when the scalar text does not parse as a float, [compute] returns
    right after the error dialog: the lesson is left as it was, with the plot
    neither cleared nor replaced and the information panel unchanged. *)
Theorem unparsable_scalar_keeps_state {rt : PyRuntime} {mpl : Matplotlib}
    (self : VectorScalingLesson.t) :
  py_float (VectorScalingLesson.scalar_entry self) = None ->
  exists self',
    VectorScalingLesson.compute self
    = ([showerror "Invalid Input" "Please enter a valid scalar."],
       (Val tt, self'))
    /\ self' = self
    /\ VectorScalingLesson.parent self' = VectorScalingLesson.parent self
    /\ VectorScalingLesson.info_frame self'
       = VectorScalingLesson.info_frame self.
Proof.
  intros H. exists self. unfold VectorScalingLesson.compute. rewrite H.
  repeat split.
Qed.

Lemma unparsable_scalar_keeps_state_witness :
  exists self',
    VectorScalingLesson.compute (rt := CPython.runtime) (mpl := draws_all)
      (VectorScalingLesson.edit_scalar "two"
         (snd (snd (VectorScalingLesson.compute (rt := CPython.runtime)
                      (mpl := draws_all) VectorScalingLesson.create_ui))))
    = ([showerror "Invalid Input" "Please enter a valid scalar."],
       (Val tt, self'))
    /\ self'
       = VectorScalingLesson.edit_scalar "two"
           (snd (snd (VectorScalingLesson.compute (rt := CPython.runtime)
                        (mpl := draws_all) VectorScalingLesson.create_ui)))
    /\ VectorScalingLesson.parent self'
       = VectorScalingLesson.parent
           (VectorScalingLesson.edit_scalar "two"
              (snd (snd (VectorScalingLesson.compute (rt := CPython.runtime)
                           (mpl := draws_all) VectorScalingLesson.create_ui))))
    /\ VectorScalingLesson.info_frame self'
       = VectorScalingLesson.info_frame
           (VectorScalingLesson.edit_scalar "two"
              (snd (snd (VectorScalingLesson.compute (rt := CPython.runtime)
                           (mpl := draws_all)
                           VectorScalingLesson.create_ui)))).
Proof.
  apply (unparsable_scalar_keeps_state (rt := CPython.runtime)
           (mpl := draws_all)).
  vm_compute. reflexivity.
Defined.

(** C5: for the triple (x, y, z) read from the form, the magnitude that the
    basics lesson and the magnitude lesson display (under the format [.4f])
    once the plot has been created is the Euclidean norm
    sqrt(x^2 + y^2 + z^2) as numpy evaluates it on binary64 numbers: the
    square root of the sum of the three squares, each square added to the sum
    with a single rounding. *)
Theorem magnitude_displayed {rt : PyRuntime} {mpl : Matplotlib}
    (x y z : float) :
  let mag := PrimFloat.sqrt (fma z z (fma y y (fma x x 0))) in
  np.linalg.norm [x; y; z] = mag
  /\ (forall self : VectorBasicsLesson.t,
        VectorInput.get_vector (VectorBasicsLesson.vector_input self)
        = [x; y; z] ->
        fst (PlotManager.plot_vectors [[x; y; z]] [PRIMARY_BLUE] [[Lit "V"]]
               [Lit "Vector Visualization"] 10 true
               (VectorBasicsLesson.parent self)) = Val tt ->
        shows_number
          (VectorBasicsLesson.info_frame (snd (VectorBasicsLesson.plot self)))
          "Magnitude: |V| = " mag)
  /\ (forall self : VectorMagnitudeLesson.t,
        VectorInput.get_vector (VectorMagnitudeLesson.vector_input self)
        = [x; y; z] ->
        fst (PlotManager.plot_vectors [[x; y; z]] [PRIMARY_BLUE] [[Lit "V"]]
               [Lit "Vector Magnitude & Direction"] 12 true
               (VectorMagnitudeLesson.parent self)) = Val tt ->
        shows_number
          (VectorMagnitudeLesson.info_frame
             (snd (VectorMagnitudeLesson.compute self)))
          "Magnitude |V| = " mag).
Proof.
  intros mag.
  assert (Hmag : np.linalg.norm [x; y; z] = mag) by reflexivity.
  split; [exact Hmag|]. split; intros self Hv.
  - unfold VectorBasicsLesson.plot, bind, gets, on_field.
    rewrite Hv, Hmag.
    destruct (PlotManager.plot_vectors _ _ _ _ _ _ _) as [[[] | e] tab'];
      [|discriminate].
    intros _. unfold VectorBasicsLesson.show_info. run_info; shown.
  - unfold VectorMagnitudeLesson.compute, bind, gets, on_field.
    rewrite Hv, Hmag.
    destruct (PlotManager.plot_vectors _ _ _ _ _ _ _) as [[[] | e] tab'];
      [|discriminate].
    intros _. unfold VectorMagnitudeLesson.direction_by.
    destruct (SMALL <? mag); unfold VectorMagnitudeLesson.show_info;
      cbn [np.true_divide np.zeros_like map]; run_info; shown.
Qed.

Lemma magnitude_displayed_witness :
  shows_number
    (VectorBasicsLesson.info_frame
       (snd (VectorBasicsLesson.plot (rt := CPython.runtime)
               (mpl := draws_all)
               {| VectorBasicsLesson.vector_input :=
                    {| VectorInput.entries := ["3"; "4"; "12"] |};
                  VectorBasicsLesson.parent := no_plot;
                  VectorBasicsLesson.info_frame := None |})))
    "Magnitude: |V| = " 13.
Proof.
  change 13 with (PrimFloat.sqrt (fma 12 12 (fma 4 4 (fma 3 3 0)))).
  apply (proj1 (proj2 (magnitude_displayed (rt := CPython.runtime)
                         (mpl := draws_all) 3 4 12))).
  - vm_compute. reflexivity.
  - vm_compute. reflexivity.
Defined.

(** C2, as the code has it: the direction that [compute] displays, once the
    plot has been created, is the vector divided by its norm when the norm
    exceeds 1e-10.  In every other case, that is when the norm is at most
    1e-10 or is not a number, the direction is the zero vector, whatever the
    division would have given: the division is not performed.  One of the
    three cases always holds, and for a vector of zeros the direction is the
    zero vector.  Nothing but the drawing makes [compute] raise: it ends as
    the call of [plot_vectors] when that call raises, and as the drawing of
    the formula otherwise. *)
Theorem direction_guarded {rt : PyRuntime} {mpl : Matplotlib}
    (self : VectorMagnitudeLesson.t) (x y z : float) :
  VectorInput.get_vector (VectorMagnitudeLesson.vector_input self) = [x; y; z] ->
  let mag := np.linalg.norm [x; y; z] in
  let plotted :=
    PlotManager.plot_vectors [[x; y; z]] [PRIMARY_BLUE] [[Lit "V"]]
      [Lit "Vector Magnitude & Direction"] 12 true
      (VectorMagnitudeLesson.parent self) in
  exists d0 d1 d2,
    VectorMagnitudeLesson.direction_by np.true_divide [x; y; z] mag
    = [d0; d1; d2]
    /\ ((SMALL <? mag) = true -> [d0; d1; d2] = [x / mag; y / mag; z / mag])
    /\ ((mag <=? SMALL) = true \/ PrimFloat.is_nan mag = true ->
        [d0; d1; d2] = [0; 0; 0]
        /\ forall divide,
             VectorMagnitudeLesson.direction_by divide [x; y; z] mag
             = [0; 0; 0])
    /\ ((SMALL <? mag) = true \/ (mag <=? SMALL) = true
        \/ PrimFloat.is_nan mag = true)
    /\ ((x =? 0) = true -> (y =? 0) = true -> (z =? 0) = true ->
        [d0; d1; d2] = [0; 0; 0])
    /\ (fst plotted = Val tt ->
        shows_triple
          (VectorMagnitudeLesson.info_frame
             (snd (VectorMagnitudeLesson.compute self)))
          "Direction = (" d0 d1 d2
        /\ fst (VectorMagnitudeLesson.compute self)
           = draw_formula 12 (VectorMagnitudeLesson.formula mag d0 d1 d2))
    /\ (forall e, fst plotted = Exc e ->
        VectorMagnitudeLesson.compute self
        = (Exc e, VectorMagnitudeLesson.with_parent (snd plotted) self)).
Proof.
  intros Hv mag plotted.
  assert (Hguard : (mag <=? SMALL) = true \/ PrimFloat.is_nan mag = true ->
                   (SMALL <? mag) = false).
  { intros [H | H]; [now apply leb_not_ltb | now apply nan_not_ltb]. }
  assert (Hzero : (x =? 0) = true -> (y =? 0) = true -> (z =? 0) = true ->
                  (SMALL <? mag) = false).
  { intros Hx Hy Hz. subst mag.
    destruct (eqb_zero_cases x Hx) as [-> | ->],
             (eqb_zero_cases y Hy) as [-> | ->],
             (eqb_zero_cases z Hz) as [-> | ->]; vm_compute; reflexivity. }
  assert (Hrun : forall d0 d1 d2,
            VectorMagnitudeLesson.direction_by np.true_divide [x; y; z] mag
            = [d0; d1; d2] ->
            (fst plotted = Val tt ->
             shows_triple
               (VectorMagnitudeLesson.info_frame
                  (snd (VectorMagnitudeLesson.compute self)))
               "Direction = (" d0 d1 d2
             /\ fst (VectorMagnitudeLesson.compute self)
                = draw_formula 12 (VectorMagnitudeLesson.formula mag d0 d1 d2))
            /\ (forall e, fst plotted = Exc e ->
                VectorMagnitudeLesson.compute self
                = (Exc e,
                   VectorMagnitudeLesson.with_parent (snd plotted) self))).
  { intros d0 d1 d2 Hd.
    unfold VectorMagnitudeLesson.compute, bind, gets, on_field.
    rewrite Hv. fold mag. rewrite Hd. fold plotted.
    destruct plotted as [[[] | e] tab']; cbn [fst snd].
    - split; [|discriminate]. intros _.
      unfold VectorMagnitudeLesson.show_info. run_info;
        (split; [shown | reflexivity]).
    - split; [discriminate|]. intros e' H. now injection H as <-. }
  unfold VectorMagnitudeLesson.direction_by in *.
  destruct (SMALL <? mag) eqn:E.
  - exists (x / mag), (y / mag), (z / mag).
    split; [reflexivity|]. split; [reflexivity|]. split.
    { intros H. apply Hguard in H. discriminate. }
    split; [now left|]. split.
    { intros Hx Hy Hz. specialize (Hzero Hx Hy Hz). discriminate. }
    apply Hrun. reflexivity.
  - exists 0, 0, 0.
    split; [reflexivity|]. split; [discriminate|]. split.
    { intros _. split; [reflexivity|]. intros divide. reflexivity. }
    split.
    { destruct (not_ltb_cases mag SMALL E) as [H | [H | H]].
      + right. now left.
      + right. now right.
      + vm_compute in H. discriminate. }
    split; [reflexivity|].
    apply Hrun. reflexivity.
Qed.

Lemma direction_guarded_witness :
  exists d0 d1 d2,
    [d0; d1; d2] = [3 / 5; 0 / 5; 4 / 5]
    /\ shows_triple
         (VectorMagnitudeLesson.info_frame
            (snd (VectorMagnitudeLesson.compute (rt := CPython.runtime)
                    (mpl := draws_all)
                    {| VectorMagnitudeLesson.vector_input :=
                         {| VectorInput.entries := ["3"; "0"; "4"] |};
                       VectorMagnitudeLesson.parent := no_plot;
                       VectorMagnitudeLesson.info_frame := None |})))
         "Direction = (" d0 d1 d2.
Proof.
  destruct (direction_guarded (rt := CPython.runtime) (mpl := draws_all)
              {| VectorMagnitudeLesson.vector_input :=
                   {| VectorInput.entries := ["3"; "0"; "4"] |};
                 VectorMagnitudeLesson.parent := no_plot;
                 VectorMagnitudeLesson.info_frame := None |} 3 0 4)
    as [d0 [d1 [d2 [_ [Hdiv [_ [_ [_ [Hshow _]]]]]]]]].
  { vm_compute. reflexivity. }
  exists d0, d1, d2. split.
  - rewrite Hdiv by (vm_compute; reflexivity). vm_compute. reflexivity.
  - apply Hshow. vm_compute. reflexivity.
Defined.

(** C2, as the claim words it, fails when the norm is not a number.  With
    "nan" typed in the X entry the norm is not at most 1e-10, so the claim
    has the direction equal the vector divided by its norm, which is
    (nan, nan, nan); [compute] displays (0, 0, 0). *)
Lemma nan_direction_is_zero :
  let self :=
    {| VectorMagnitudeLesson.vector_input :=
         {| VectorInput.entries := ["nan"; "0"; "0"] |};
       VectorMagnitudeLesson.parent := no_plot;
       VectorMagnitudeLesson.info_frame := None |} in
  let vec :=
    VectorInput.get_vector (rt := CPython.runtime)
      (VectorMagnitudeLesson.vector_input self) in
  let mag := np.linalg.norm vec in
  (mag <=? SMALL) = false
  /\ np.true_divide vec mag = [nan; nan; nan]
  /\ VectorMagnitudeLesson.direction_by np.true_divide vec mag = [0; 0; 0]
  /\ fst (VectorMagnitudeLesson.compute (rt := CPython.runtime)
            (mpl := draws_all) self) = Val tt
  /\ shows_triple
       (VectorMagnitudeLesson.info_frame
          (snd (VectorMagnitudeLesson.compute (rt := CPython.runtime)
                  (mpl := draws_all) self)))
       "Direction = (" 0 0 0
  /\ ~ shows_triple
         (VectorMagnitudeLesson.info_frame
            (snd (VectorMagnitudeLesson.compute (rt := CPython.runtime)
                    (mpl := draws_all) self)))
         "Direction = (" nan nan nan.
Proof.
  cbv zeta. split; [vm_compute; reflexivity|].
  split; [vm_compute; reflexivity|].
  split; [vm_compute; reflexivity|].
  split; [vm_compute; reflexivity|].
  split.
  - eexists. split; [vm_compute; reflexivity|]. simpl. auto 6.
  - intros [items [E Hin]]. vm_compute in E. injection E as <-.
    simpl in Hin.
    repeat (destruct Hin as [Hin | Hin]; [discriminate|]). exact Hin.
Qed.

(** * Further properties of the code *)

(** ** The vector form *)

Lemma map_retype {B} (f : string -> B) (i : nat) (txt : string)
    (l : list string) :
  map f (VectorInput.retype i txt l) = list_update i (f txt) (map f l).
Proof.
  revert i. induction l as [|e l IH]; intros [|i]; simpl; auto.
  now rewrite IH.
Qed.

Lemma reachable_triple {rt : PyRuntime} (self : VectorInput.t) :
  VectorInput.reachable self ->
  exists x y z, VectorInput.get_vector self = [x; y; z].
Proof.
  intros Hr. apply reachable_three in Hr. rewrite get_vector_map.
  destruct (VectorInput.entries self) as [|ex [|ey [|ez [|e r]]]];
    try discriminate.
  now eexists _, _, _.
Qed.

(** X1: replacing the text of one entry changes the component at that
    position only, to the component of the new text; an edit past the last
    entry changes nothing. *)
Theorem edit_changes_one_component {rt : PyRuntime} (self : VectorInput.t)
    (i : nat) (txt : string) :
  VectorInput.get_vector (VectorInput.edit i txt self)
  = list_update i (VectorInput.component txt) (VectorInput.get_vector self)
  /\ ((List.length (VectorInput.entries self) <= i)%nat ->
      VectorInput.get_vector (VectorInput.edit i txt self)
      = VectorInput.get_vector self).
Proof.
  rewrite !get_vector_map. unfold VectorInput.edit. simpl.
  rewrite map_retype. split; [reflexivity|].
  generalize (VectorInput.entries self). clear self. intros l. revert i.
  induction l as [|e l IH]; intros [|i] Hi; simpl in *; try lia; auto.
  rewrite IH by lia. reflexivity.
Qed.

Lemma reset_reads_zero_aux {rt : PyRuntime} (self : VectorInput.t) :
  py_strip "0" = "0" -> py_float "0" = Some 0 ->
  VectorInput.get_vector (VectorInput.reset self)
  = np.zeros_like (VectorInput.get_vector self).
Proof.
  intros Hs Hf. rewrite !get_vector_map. unfold VectorInput.reset. simpl.
  unfold np.zeros_like. rewrite !map_map. apply map_ext. intros e.
  unfold VectorInput.component. rewrite Hs, Hf. reflexivity.
Qed.

(** X2: after [reset], a form reads as the zero vector of the same length,
    on a runtime for which the text "0" is stripped to itself and parses
    as 0.0. *)
Theorem reset_reads_zero {rt : PyRuntime} (self : VectorInput.t) :
  py_strip "0" = "0" -> py_float "0" = Some 0 ->
  VectorInput.get_vector (VectorInput.reset self)
  = np.zeros_like (VectorInput.get_vector self)
  /\ Forall (fun x => x = 0) (VectorInput.get_vector (VectorInput.reset self)).
Proof.
  intros Hs Hf. rewrite reset_reads_zero_aux by assumption.
  split; [reflexivity|].
  unfold np.zeros_like. apply Forall_forall. intros x Hin.
  apply in_map_iff in Hin. now destruct Hin as [_ [<- _]].
Qed.

Lemma reset_reads_zero_witness :
  VectorInput.get_vector (rt := CPython.runtime)
    (VectorInput.reset {| VectorInput.entries := ["7"; "x"; " 2.5"] |})
  = np.zeros_like
      (VectorInput.get_vector (rt := CPython.runtime)
         {| VectorInput.entries := ["7"; "x"; " 2.5"] |})
  /\ Forall (fun x => x = 0)
       (VectorInput.get_vector (rt := CPython.runtime)
          (VectorInput.reset {| VectorInput.entries := ["7"; "x"; " 2.5"] |})).
Proof.
  apply (reset_reads_zero (rt := CPython.runtime)).
  - vm_compute. reflexivity.
  - vm_compute. reflexivity.
Defined.

(** X3: [create_widgets] appends one entry per default that [zip] pairs with
    X, Y and Z: three at most, fewer when fewer defaults are given, each
    holding [str] of its default. *)
Theorem create_widgets_entries (label : string) (defaults : list Z)
    (self : VectorInput.t) :
  VectorInput.create_widgets label defaults self
  = (Val tt,
     {| VectorInput.entries :=
          (VectorInput.entries self
           ++ map VectorInput.str (firstn 3 defaults))%list |})
  /\ List.length (VectorInput.entries (VectorInput.init label defaults))
     = Nat.min 3 (List.length defaults).
Proof.
  split.
  - unfold VectorInput.create_widgets.
    destruct self as [es].
    destruct defaults as [|d0 [|d1 [|d2 r]]]; cbn;
      rewrite <- ?app_assoc, ?app_nil_r; reflexivity.
  - rewrite init_entries, length_map, length_firstn. reflexivity.
Qed.

(** X4: validation and reading agree on a text that [strip] leaves as it
    is.  When the text is neither empty nor "-", the entry turns to the
    error colour exactly when the text does not parse, and then
    [get_vector] reads 0.0 for it; it turns to the normal colour when the
    text parses, and then [get_vector] reads the parsed number.  On the empty
    text and on "-" the entry keeps the colour it had, while [get_vector]
    reads 0.0. *)
Theorem validation_agrees_with_reading {rt : PyRuntime}
    (entry : EntryWidget.t) :
  let value := EntryWidget.text_of entry in
  let entry' := EntryWidget.validate_input entry in
  py_strip value = value ->
  EntryWidget.text_of entry' = value
  /\ (value = "" \/ value = "-" ->
      entry' = entry /\ VectorInput.component value = 0)
  /\ (value <> "" -> value <> "-" ->
      (py_float value = None ->
       EntryWidget.bg entry' = INVALID_BG /\ VectorInput.component value = 0)
      /\ (forall x, py_float value = Some x ->
          EntryWidget.bg entry' = ENTRY_BG
          /\ VectorInput.component value = x)).
Proof.
  intros value entry' Hs. subst entry'.
  unfold EntryWidget.validate_input, VectorInput.component.
  fold value. rewrite Hs. split; [|split].
  - destruct (negb (value =? "")%string && negb (value =? "-")%string);
      [destruct (py_float value)|]; reflexivity.
  - intros [H | H]; rewrite H; split; reflexivity.
  - intros H1 H2. apply String.eqb_neq in H1, H2. rewrite H1, H2. simpl.
    split.
    + intros ->. split; reflexivity.
    + intros x ->. split; reflexivity.
Qed.

Lemma validation_agrees_with_reading_witness :
  EntryWidget.bg
    (EntryWidget.validate_input (rt := CPython.runtime)
       {| EntryWidget.text_of := "2.5e"; EntryWidget.bg := ENTRY_BG |})
  = INVALID_BG
  /\ VectorInput.component (rt := CPython.runtime) "2.5e" = 0.
Proof.
  refine (proj1 (proj2 (proj2
            (validation_agrees_with_reading (rt := CPython.runtime)
               {| EntryWidget.text_of := "2.5e"; EntryWidget.bg := ENTRY_BG |}
               _)) _ _) _).
  - vm_compute. reflexivity.
  - vm_compute. discriminate.
  - vm_compute. discriminate.
  - vm_compute. reflexivity.
Defined.

(** ** The plot renderer *)

(** X5: [plot_vectors] rebuilds the plot from its arguments alone: what it
    returns and the attributes it leaves on the frame do not depend on the
    plot that the frame held before.  However it ends, the frame has its two
    containers afterwards, and a canvas exactly when the call returned. *)
Theorem plot_vectors_rebuilds {mpl : Matplotlib} (vectors : list ndarray)
    (colors : list string) (labels : list text) (heading : text)
    (limits : float) (show_toolbar : bool) (tab1 tab2 : Tab) :
  PlotManager.plot_vectors vectors colors labels heading limits show_toolbar
    tab1
  = PlotManager.plot_vectors vectors colors labels heading limits show_toolbar
      tab2
  /\ plot_container
       (snd (PlotManager.plot_vectors vectors colors labels heading limits
               show_toolbar tab1)) = true
  /\ plot_frame
       (snd (PlotManager.plot_vectors vectors colors labels heading limits
               show_toolbar tab1)) = true
  /\ (canvas_widget
        (snd (PlotManager.plot_vectors vectors colors labels heading limits
                show_toolbar tab1)) <> None
      <-> fst (PlotManager.plot_vectors vectors colors labels heading limits
                 show_toolbar tab1) = Val tt).
Proof.
  rewrite !plot_vectors_run. split; [reflexivity|].
  destruct (chosen_setup vectors colors labels limits) as [[[] | e] ax];
    [destruct (draw_plot _) as [[] | e]|];
    cbn [fst snd plot_container plot_frame canvas_widget].
  - repeat split. discriminate.
  - repeat split; [congruence | discriminate].
  - repeat split; [congruence | discriminate].
Qed.

Lemma forallb_guard {A} (p q : A -> bool) (l : list A) :
  forallb (fun x => negb (p x) || q x) l = true
  <-> forall x, In x l -> p x = true -> q x = true.
Proof.
  rewrite forallb_forall. split; intros H x Hin.
  - intros Hp. specialize (H x Hin). rewrite Hp in H. exact H.
  - specialize (H x Hin). destruct (p x); simpl; auto.
Qed.

Lemma fits_3d_all (items : list (ndarray * string * text)) :
  forallb fits_3d items = true
  <-> forall it, In it items ->
        above_3d it = true -> (3 <= List.length (fst (fst it)))%nat.
Proof.
  unfold fits_3d. rewrite forallb_guard.
  split; intros H it Hin Ha; apply Nat.leb_le; now apply H.
Qed.

Lemma fits_2d_all (items : list (ndarray * string * text)) :
  forallb fits_2d items = true
  <-> forall it, In it items ->
        above_2d it = true -> (2 <= List.length (fst (fst it)))%nat.
Proof.
  unfold fits_2d. rewrite forallb_guard.
  split; intros H it Hin Ha; apply Nat.leb_le; now apply H.
Qed.

(** X6: on finite limits a plot setup raises only [IndexError], and only on
    a vector that is to be drawn but is too short.  The 3D setup returns if
    and only if every zipped vector whose norm exceeds 1e-10 has three
    components or more; the 2D setup, if and only if every zipped vector
    whose first two components have a norm above 1e-10 has two components or
    more.  On limits that are not finite both setups raise [ValueError]. *)
Theorem setup_raises_on_short_vectors (vectors : list ndarray)
    (colors : list string) (labels : list text) (limits : float) (ax : Axes) :
  (PrimFloat.is_finite limits = true ->
   (fst (PlotManager.setup_3d_plot vectors colors labels limits ax) = Val tt
    <-> forall it, In it (zip3 vectors colors labels) ->
          above_3d it = true -> (3 <= List.length (fst (fst it)))%nat)
   /\ (fst (PlotManager.setup_3d_plot vectors colors labels limits ax)
       <> Val tt
       -> fst (PlotManager.setup_3d_plot vectors colors labels limits ax)
          = Exc IndexError)
   /\ (fst (PlotManager.setup_2d_plot vectors colors labels limits ax) = Val tt
       <-> forall it, In it (zip3 vectors colors labels) ->
             above_2d it = true -> (2 <= List.length (fst (fst it)))%nat)
   /\ (fst (PlotManager.setup_2d_plot vectors colors labels limits ax)
       <> Val tt
       -> fst (PlotManager.setup_2d_plot vectors colors labels limits ax)
          = Exc IndexError))
  /\ (PrimFloat.is_finite limits = false ->
      fst (PlotManager.setup_3d_plot vectors colors labels limits ax)
      = Exc ValueError
      /\ fst (PlotManager.setup_2d_plot vectors colors labels limits ax)
         = Exc ValueError).
Proof.
  rewrite setup_3d_plot_result, setup_2d_plot_result.
  split; intros ->; [|split; reflexivity].
  assert (G : forall (b : bool) (P : Prop),
             (b = true <-> P) ->
             ((if b then Val tt else Exc IndexError) = Val tt <-> P)
             /\ ((if b then Val tt else Exc IndexError) <> Val tt ->
                 (if b then Val tt else Exc IndexError) = Exc IndexError)).
  { intros b P Hb. destruct b; split; try tauto; try congruence.
    split; [discriminate|]. intros HP. apply Hb in HP. discriminate. }
  destruct (G _ _ (fits_3d_all (zip3 vectors colors labels))) as [A3 B3].
  destruct (G _ _ (fits_2d_all (zip3 vectors colors labels))) as [A2 B2].
  repeat split; try apply A3; try apply A2; assumption.
Qed.

Lemma setup_raises_on_short_vectors_witness :
  fst (PlotManager.setup_3d_plot [[1; 1]] [PRIMARY_BLUE] [[Lit "V"]] 10
         (PlotManager.add_subplot Projection3D)) = Exc IndexError
  /\ fst (PlotManager.setup_2d_plot [[1; 1]] [PRIMARY_BLUE] [[Lit "V"]] 10
            (PlotManager.add_subplot Rectilinear)) = Val tt.
Proof.
  destruct (proj1 (setup_raises_on_short_vectors [[1; 1]] [PRIMARY_BLUE]
                     [[Lit "V"]] 10 (PlotManager.add_subplot Projection3D)))
    as [_ [H3 _]]; [reflexivity|].
  destruct (proj1 (setup_raises_on_short_vectors [[1; 1]] [PRIMARY_BLUE]
                     [[Lit "V"]] 10 (PlotManager.add_subplot Rectilinear)))
    as [_ [_ [H2 _]]]; [reflexivity|].
  split.
  - apply H3. vm_compute. discriminate.
  - apply H2. intros it [<- | []] _. simpl. lia.
Defined.

(** A setup that returns leaves the limits set and the title and legend of
    the axes as they were. *)
Lemma chosen_setup_frame vectors colors labels limits :
  fst (chosen_setup vectors colors labels limits) = Val tt ->
  axes_frame (snd (chosen_setup vectors colors labels limits))
  = if PlotManager.needs_3d vectors
    then (Projection3D, Some (- limits, limits), Some (- limits, limits),
          Some (- limits, limits), None, false)
    else (Rectilinear, Some (- limits, limits), Some (- limits, limits),
          None, None, false).
Proof.
  unfold chosen_setup. destruct (PlotManager.needs_3d vectors); intros H.
  - now rewrite setup_3d_plot_state.
  - now rewrite setup_2d_plot_state.
Qed.

(** X7: a plot that [plot_vectors] creates has both frames and a canvas, a
    toolbar exactly when asked for, a figure of 8 by 6 when 3D and of 7 by 5
    when 2D, the given title, a legend exactly when there is more than one
    vector, and axes from [-limits] to [limits]: on x, y and z when 3D, on
    x and y only when 2D. *)
Theorem plot_decoration {mpl : Matplotlib} (vectors : list ndarray)
    (colors : list string) (labels : list text) (heading : text)
    (limits : float) (show_toolbar : bool) (tab tab' : Tab) :
  PlotManager.plot_vectors vectors colors labels heading limits show_toolbar
    tab
  = (Val tt, tab') ->
  exists fig,
    tab' = {| plot_container := true; plot_frame := true;
              canvas_widget := Some fig; toolbar := show_toolbar |}
    /\ figsize fig
       = (if PlotManager.needs_3d vectors then (8, 6)%Z else (7, 5)%Z)
    /\ title (axes fig) = Some heading
    /\ legend (axes fig) = (1 <? List.length vectors)%nat
    /\ xlim (axes fig) = Some (- limits, limits)
    /\ ylim (axes fig) = Some (- limits, limits)
    /\ zlim (axes fig)
       = (if PlotManager.needs_3d vectors
          then Some (- limits, limits) else None).
Proof.
  rewrite plot_vectors_run.
  pose proof (chosen_setup_frame vectors colors labels limits) as Hf.
  destruct (chosen_setup vectors colors labels limits) as [[[] | e] ax];
    [|discriminate].
  destruct (draw_plot _) as [[] | e]; [|discriminate].
  specialize (Hf eq_refl). cbn [snd] in Hf. intros H. injection H as <-.
  eexists. split; [reflexivity|]. unfold figure_of. cbn [figsize axes].
  split; [reflexivity|].
  unfold axes_frame in Hf.
  destruct (PlotManager.needs_3d vectors), (1 <? List.length vectors)%nat;
    injection Hf as Hp Hx Hy Hz Ht Hl; cbn; rewrite ?Hx, ?Hy, ?Hz, ?Hl;
    repeat split.
Qed.

Lemma plot_decoration_witness :
  exists fig,
    snd (PlotManager.plot_vectors (mpl := draws_all) [[1; 2; 0]; [0; 1; 0]]
           [PRIMARY_BLUE; PRIMARY_RED] [[Lit "A"]; [Lit "B"]] [Lit "Two"]
           12 false no_plot)
    = {| plot_container := true; plot_frame := true;
         canvas_widget := Some fig; toolbar := false |}
    /\ figsize fig
       = (if PlotManager.needs_3d [[1; 2; 0]; [0; 1; 0]]
          then (8, 6)%Z else (7, 5)%Z)
    /\ title (axes fig) = Some [Lit "Two"]
    /\ legend (axes fig) = (1 <? List.length [[1; 2; 0]; [0; 1; 0]])%nat
    /\ xlim (axes fig) = Some (- 12, 12)
    /\ ylim (axes fig) = Some (- 12, 12)
    /\ zlim (axes fig)
       = (if PlotManager.needs_3d [[1; 2; 0]; [0; 1; 0]]
          then Some (- 12, 12) else None).
Proof.
  apply (plot_decoration (mpl := draws_all) [[1; 2; 0]; [0; 1; 0]]
           [PRIMARY_BLUE; PRIMARY_RED] [[Lit "A"]; [Lit "B"]] [Lit "Two"]
           12 false no_plot).
  vm_compute. reflexivity.
Defined.

Lemma count_drawn_3d (offset : float)
    (items : list (ndarray * string * text)) :
  List.length (filter is_quiver (flat_map (drawn_3d offset) items))
  = List.length (filter above_3d items)
  /\ List.length (filter is_text (flat_map (drawn_3d offset) items))
     = List.length (filter above_3d items).
Proof.
  induction items as [|[[vec color] label] items [IHq IHt]]; [now split|].
  cbn [flat_map filter]. rewrite !filter_app, !length_app, IHq, IHt.
  unfold drawn_3d, above_3d. cbn [fst].
  destruct (SMALL <? np.linalg.norm vec); split; reflexivity.
Qed.

Lemma count_drawn_2d (offset : float)
    (items : list (ndarray * string * text)) :
  List.length (filter is_quiver (flat_map (drawn_2d offset) items))
  = List.length (filter above_2d items)
  /\ List.length (filter is_text (flat_map (drawn_2d offset) items))
     = List.length (filter above_2d items).
Proof.
  induction items as [|[[vec color] label] items [IHq IHt]]; [now split|].
  cbn [flat_map filter]. rewrite !filter_app, !length_app, IHq, IHt.
  unfold drawn_2d, above_2d. cbn [fst].
  destruct (SMALL <? np.linalg.norm (np.upto 2 vec)); split; reflexivity.
Qed.

Lemma zip3_length {A B C} (a : list A) (b : list B) (c : list C) :
  List.length (zip3 a b c)
  = Nat.min (List.length a) (Nat.min (List.length b) (List.length c)).
Proof. unfold zip3. rewrite !length_combine. lia. Qed.

Lemma filter_length_le {A} (p : A -> bool) (l : list A) :
  (List.length (filter p l) <= List.length l)%nat.
Proof.
  induction l as [|x l IH]; simpl; [lia|]. destruct (p x); simpl; lia.
Qed.

(** X8: on finite limits and vectors of three components a setup adds as
    many arrows as texts, one of each per zipped vector above the threshold,
    so never more than the shortest of the three lists has elements: a vector
    without a colour or a label is not drawn.  With no vector at all, no
    arrow is drawn. *)
Theorem arrows_counted (vectors : list ndarray) (colors : list string)
    (labels : list text) (limits : float) (ax : Axes) :
  PrimFloat.is_finite limits = true ->
  Forall (fun vec => (3 <= List.length vec)%nat) vectors ->
  let shortest :=
    Nat.min (List.length vectors)
      (Nat.min (List.length colors) (List.length labels)) in
  let d3 := artists (snd (PlotManager.setup_3d_plot vectors colors labels
                            limits ax)) in
  let d2 := artists (snd (PlotManager.setup_2d_plot vectors colors labels
                            limits ax)) in
  let n3 := List.length (filter above_3d (zip3 vectors colors labels)) in
  let n2 := List.length (filter above_2d (zip3 vectors colors labels)) in
  (List.length (filter is_quiver d3)
   = List.length (filter is_quiver (artists ax)) + n3
   /\ List.length (filter is_text d3)
      = List.length (filter is_text (artists ax)) + n3
   /\ n3 <= shortest)%nat
  /\ (List.length (filter is_quiver d2)
      = List.length (filter is_quiver (artists ax)) + n2
      /\ List.length (filter is_text d2)
         = List.length (filter is_text (artists ax)) + n2
      /\ n2 <= shortest)%nat.
Proof.
  intros Hfin Hlen shortest d3 d2 n3 n2.
  assert (Hlen2 : Forall (fun vec => (2 <= List.length vec)%nat) vectors).
  { eapply Forall_impl; [|exact Hlen]. simpl. intros; lia. }
  subst d3 d2.
  rewrite setup_3d_plot_state by now apply setup_3d_plot_returns.
  rewrite setup_2d_plot_state by now apply setup_2d_plot_returns.
  cbn [artists].
  rewrite !filter_app, !length_app. cbn [filter is_quiver is_text].
  destruct (count_drawn_3d (limits * OFFSET_RATIO)
              (zip3 vectors colors labels)) as [Q3 T3].
  destruct (count_drawn_2d (limits * OFFSET_RATIO)
              (zip3 vectors colors labels)) as [Q2 T2].
  rewrite Q3, T3, Q2, T2. fold n3 n2.
  pose proof (filter_length_le above_3d (zip3 vectors colors labels)) as L3.
  pose proof (filter_length_le above_2d (zip3 vectors colors labels)) as L2.
  rewrite zip3_length in L3, L2. fold shortest in L3, L2. fold n3 in L3.
  fold n2 in L2. repeat split; auto.
Qed.

Lemma arrows_counted_witness :
  List.length
     (filter is_quiver
        (artists
           (snd (PlotManager.setup_3d_plot [[3; 4; 2]; [0; 0; 0]; [1; 1; 1]]
                   [PRIMARY_BLUE; PRIMARY_RED] [[Lit "A"]; [Lit "B"]] 10
                   (PlotManager.add_subplot Projection3D)))))
  = 1%nat.
Proof.
  pose proof (arrows_counted [[3; 4; 2]; [0; 0; 0]; [1; 1; 1]]
                [PRIMARY_BLUE; PRIMARY_RED] [[Lit "A"]; [Lit "B"]] 10
                (PlotManager.add_subplot Projection3D)) as H.
  destruct H as [[H _] _].
  { reflexivity. }
  { repeat constructor. }
  rewrite H. vm_compute. reflexivity.
Defined.

(** ** The lessons *)

(** X9: nothing but the drawing makes a handler raise.  On the forms of the
    application (created with three defaults, then edited or reset),
    whatever the user has typed in the entries, for either choice of the
    operation and any scalar text, an exception that leaves [plot] or
    [compute] is one that the drawing of a plot or of a formula has
    raised. *)
Theorem handlers_raise_from_drawing {rt : PyRuntime} {mpl : Matplotlib}
    (e : exn) :
  (forall self : VectorBasicsLesson.t,
     VectorInput.reachable (VectorBasicsLesson.vector_input self) ->
     fst (VectorBasicsLesson.plot self) = Exc e ->
     (exists fig, draw_plot fig = Exc e)
     \/ (exists body, draw_formula 13 body = Exc e))
  /\ (forall self : VectorAddSubLesson.t,
        VectorInput.reachable (VectorAddSubLesson.vector_a self) ->
        VectorInput.reachable (VectorAddSubLesson.vector_b self) ->
        fst (VectorAddSubLesson.compute self) = Exc e ->
        (exists fig, draw_plot fig = Exc e)
        \/ (exists body, draw_formula 12 body = Exc e))
  /\ (forall self : VectorScalingLesson.t,
        VectorInput.reachable (VectorScalingLesson.vector_input self) ->
        fst (snd (VectorScalingLesson.compute self)) = Exc e ->
        (exists fig, draw_plot fig = Exc e)
        \/ (exists body, draw_formula 12 body = Exc e))
  /\ (forall self : VectorMagnitudeLesson.t,
        VectorInput.reachable (VectorMagnitudeLesson.vector_input self) ->
        fst (VectorMagnitudeLesson.compute self) = Exc e ->
        (exists fig, draw_plot fig = Exc e)
        \/ (exists body, draw_formula 12 body = Exc e)).
Proof.
  assert (Hplot : forall vectors colors labels heading limits tab r tab',
            PrimFloat.is_finite limits = true ->
            Forall (fun vec => (3 <= List.length vec)%nat) vectors ->
            PlotManager.plot_vectors vectors colors labels heading limits true
              tab = (r, tab') ->
            r = Exc e -> exists fig, draw_plot fig = Exc e).
  { intros vectors colors labels heading limits tab r tab' Hfin Hlen E ->.
    pose proof (plot_vectors_result vectors colors labels heading limits true
                  tab Hfin Hlen) as H.
    rewrite E in H. cbn [fst] in H. eauto. }
  split; [|split; [|split]].
  - intros self Hr. destruct (reachable_triple _ Hr) as [x [y [z Hv]]].
    unfold VectorBasicsLesson.plot, bind, gets, on_field. rewrite Hv.
    destruct (PlotManager.plot_vectors _ _ _ _ _ _ _) as [[[] | e'] tab']
      eqn:E; cbn [fst snd].
    + unfold VectorBasicsLesson.show_info. unfold_info.
      destruct (draw_formula _ _) as [[] | e'] eqn:Ef; cbn [fst];
        [discriminate|].
      intros H. injection H as <-. right. eauto.
    + intros H. left.
      refine (Hplot _ _ _ _ _ _ _ _ _ _ E H);
        [reflexivity | repeat constructor].
  - intros self Ha Hb.
    destruct (reachable_triple _ Ha) as [a0 [a1 [a2 Hva]]].
    destruct (reachable_triple _ Hb) as [b0 [b1 [b2 Hvb]]].
    unfold VectorAddSubLesson.compute, bind, gets, eval, on_field.
    rewrite Hva, Hvb.
    assert (Hres : exists r0 r1 r2,
              (if (VectorAddSubLesson.op_var self =? "Add")%string
               then np.add [a0; a1; a2] [b0; b1; b2]
               else np.subtract [a0; a1; a2] [b0; b1; b2])
              = Val [r0; r1; r2]).
    { destruct (VectorAddSubLesson.op_var self =? "Add")%string;
        now eexists _, _, _. }
    destruct Hres as [r0 [r1 [r2 ->]]].
    destruct (PlotManager.plot_vectors _ _ _ _ _ _ _) as [[[] | e'] tab']
      eqn:E; cbn [fst snd].
    + unfold VectorAddSubLesson.show_info. unfold_info.
      destruct (draw_formula _ _) as [[] | e'] eqn:Ef; cbn [fst];
        [discriminate|].
      intros H. injection H as <-. right. eauto.
    + intros H. left.
      refine (Hplot _ _ _ _ _ _ _ _ _ _ E H);
        [reflexivity | repeat constructor].
  - intros self Hr. destruct (reachable_triple _ Hr) as [x [y [z Hv]]].
    unfold VectorScalingLesson.compute. rewrite Hv.
    destruct (py_float (VectorScalingLesson.scalar_entry self)) as [k|];
      [|discriminate].
    unfold VectorScalingLesson.scale_and_show, bind, on_field.
    cbn [np.multiply map fst snd].
    destruct (PlotManager.plot_vectors _ _ _ _ _ _ _) as [[[] | e'] tab']
      eqn:E; cbn [fst snd].
    + unfold VectorScalingLesson.show_info. unfold_info.
      destruct (draw_formula _ _) as [[] | e'] eqn:Ef; cbn [fst];
        [discriminate|].
      intros H. injection H as <-. right. eauto.
    + intros H. left.
      refine (Hplot _ _ _ _ _ _ _ _ _ _ E H);
        [reflexivity | repeat constructor].
  - intros self Hr. destruct (reachable_triple _ Hr) as [x [y [z Hv]]].
    unfold VectorMagnitudeLesson.compute, bind, gets, on_field. rewrite Hv.
    destruct (PlotManager.plot_vectors _ _ _ _ _ _ _) as [[[] | e'] tab']
      eqn:E; cbn [fst snd].
    + unfold VectorMagnitudeLesson.direction_by.
      destruct (SMALL <? np.linalg.norm [x; y; z]);
        unfold VectorMagnitudeLesson.show_info;
        cbn [np.true_divide np.zeros_like map]; unfold_info;
        (destruct (draw_formula _ _) as [[] | e'] eqn:Ef; cbn [fst];
         [discriminate|]);
        intros H; injection H as <-; right; eauto.
    + intros H. left.
      refine (Hplot _ _ _ _ _ _ _ _ _ _ E H);
        [reflexivity | repeat constructor].
Qed.

Lemma handlers_raise_from_drawing_witness :
  fst (VectorBasicsLesson.plot (rt := CPython.runtime) (mpl := refuses_plots)
         VectorBasicsLesson.create_ui) = Exc RuntimeError
  /\ ((exists fig, draw_plot (Matplotlib := refuses_plots) fig
                   = Exc RuntimeError)
      \/ (exists body, draw_formula (Matplotlib := refuses_plots) 13 body
                       = Exc RuntimeError)).
Proof.
  assert (E : fst (VectorBasicsLesson.plot (rt := CPython.runtime)
                     (mpl := refuses_plots) VectorBasicsLesson.create_ui)
              = Exc RuntimeError) by (vm_compute; reflexivity).
  split; [exact E|].
  refine (proj1 (handlers_raise_from_drawing (rt := CPython.runtime)
                   (mpl := refuses_plots) RuntimeError)
            VectorBasicsLesson.create_ui _ E).
  apply VectorInput.reach_init. simpl. lia.
Defined.

Lemma keeps_on_field {S F G A} (f : S -> G) (get : S -> F)
    (set : F -> S -> S) (m : M F A) :
  (forall v s, f (set v s) = f s) -> keeps f (on_field get set m).
Proof.
  intros H s. unfold on_field. destruct (m (get s)) as [r v]. apply H.
Qed.

Lemma keeps_on_new_frame {S G A} (f : S -> G)
    (set : option InfoFrame -> S -> S) (m : M InfoFrame A) :
  (forall v s, f (set v s) = f s) -> keeps f (on_new_frame set m).
Proof.
  intros H s. unfold on_new_frame. destruct (m []) as [r v]. apply H.
Qed.

Lemma keeps_gets {S G A} (f : S -> G) (g : S -> A) : keeps f (gets g).
Proof. intros s. reflexivity. Qed.

Ltac keeps_inputs :=
  repeat first [ apply keeps_bind; [| intros]
               | apply keeps_gets | apply keeps_eval
               | apply keeps_on_field; reflexivity
               | apply keeps_on_new_frame; reflexivity ].

Lemma basics_plot_keeps {rt : PyRuntime} {mpl : Matplotlib} :
  keeps VectorBasicsLesson.vector_input VectorBasicsLesson.plot.
Proof.
  unfold VectorBasicsLesson.plot, VectorBasicsLesson.show_info. keeps_inputs.
Qed.

Lemma addsub_compute_keeps {rt : PyRuntime} {mpl : Matplotlib} :
  keeps (fun s => (VectorAddSubLesson.vector_a s,
                   VectorAddSubLesson.vector_b s,
                   VectorAddSubLesson.op_var s))
    VectorAddSubLesson.compute.
Proof.
  unfold VectorAddSubLesson.compute, VectorAddSubLesson.show_info.
  keeps_inputs.
Qed.

Lemma scale_and_show_keeps {rt : PyRuntime} {mpl : Matplotlib}
    (vec : ndarray) (k : float) :
  keeps (fun s => (VectorScalingLesson.vector_input s,
                   VectorScalingLesson.scalar_entry s))
    (VectorScalingLesson.scale_and_show vec k).
Proof.
  unfold VectorScalingLesson.scale_and_show, VectorScalingLesson.show_info.
  keeps_inputs.
Qed.

Lemma magnitude_compute_keeps {rt : PyRuntime} {mpl : Matplotlib} :
  keeps VectorMagnitudeLesson.vector_input VectorMagnitudeLesson.compute.
Proof.
  unfold VectorMagnitudeLesson.compute, VectorMagnitudeLesson.show_info.
  keeps_inputs.
Qed.

(** X10: a handler never changes what the user has entered: after [plot] or
    [compute], however it ends, the entries of the forms, the chosen
    operation and the scalar text are as before. *)
Theorem handlers_keep_inputs {rt : PyRuntime} {mpl : Matplotlib} :
  (forall self : VectorBasicsLesson.t,
     VectorBasicsLesson.vector_input (snd (VectorBasicsLesson.plot self))
     = VectorBasicsLesson.vector_input self)
  /\ (forall self : VectorAddSubLesson.t,
        let self' := snd (VectorAddSubLesson.compute self) in
        VectorAddSubLesson.vector_a self' = VectorAddSubLesson.vector_a self
        /\ VectorAddSubLesson.vector_b self'
           = VectorAddSubLesson.vector_b self
        /\ VectorAddSubLesson.op_var self' = VectorAddSubLesson.op_var self)
  /\ (forall self : VectorScalingLesson.t,
        let self' := snd (snd (VectorScalingLesson.compute self)) in
        VectorScalingLesson.vector_input self'
        = VectorScalingLesson.vector_input self
        /\ VectorScalingLesson.scalar_entry self'
           = VectorScalingLesson.scalar_entry self)
  /\ (forall self : VectorMagnitudeLesson.t,
        VectorMagnitudeLesson.vector_input
          (snd (VectorMagnitudeLesson.compute self))
        = VectorMagnitudeLesson.vector_input self).
Proof.
  split; [|split; [|split]].
  - exact basics_plot_keeps.
  - intros self self'. subst self'.
    pose proof (addsub_compute_keeps self) as K.
    injection K as Ha Hb Hop. auto.
  - intros self self'. subst self'. unfold VectorScalingLesson.compute.
    destruct (py_float (VectorScalingLesson.scalar_entry self)) as [k|];
      [|split; reflexivity].
    pose proof (scale_and_show_keeps
                  (VectorInput.get_vector
                     (VectorScalingLesson.vector_input self)) k self) as K.
    injection K as Hv Hk. auto.
  - exact magnitude_compute_keeps.
Qed.

(** Statements that rebuild the plot and then the information panel leave,
    when run a second time, the object as the first run left it. *)
Lemma rebuild_twice {S} (get_p : S -> Tab) (set_p : Tab -> S -> S)
    (set_i : option InfoFrame -> S -> S) (plotting : M Tab unit)
    (filling : M InfoFrame unit) (s : S) :
  (forall tab1 tab2, plotting tab1 = plotting tab2) ->
  (forall v x, get_p (set_p v x) = v) ->
  (forall f x, get_p (set_i f x) = get_p x) ->
  (forall v w x, set_p v (set_p w x) = set_p v x) ->
  (forall f g x, set_i f (set_i g x) = set_i f x) ->
  (forall v f x, set_p v (set_i f x) = set_i f (set_p v x)) ->
  let h := on_field get_p set_p plotting ;; on_new_frame set_i filling in
  h (snd (h s)) = h s.
Proof.
  intros Hplot Hgs Hgi Hss Hii Hsi h. subst h.
  unfold bind, on_field, on_new_frame.
  rewrite (Hplot (get_p s) no_plot).
  destruct (plotting no_plot) as [[[] | e] tab'] eqn:E.
  - destruct (filling []) as [r f]. cbn [fst snd].
    rewrite (Hplot _ no_plot), E.
    now rewrite Hsi, Hss, Hii.
  - cbn [fst snd]. rewrite (Hplot _ no_plot), E. now rewrite Hss.
Qed.

Lemma gets_then_twice {S A} (g : S -> A) (k : A -> M S unit) (s : S) :
  keeps g (bind (gets g) k) ->
  (forall a x, k a (snd (k a x)) = k a x) ->
  bind (gets g) k (snd (bind (gets g) k s)) = bind (gets g) k s.
Proof.
  intros K H. specialize (K s). revert K. unfold bind, gets.
  intros K. rewrite K. apply H.
Qed.

Lemma eval_then_twice {S A} (r : res A) (k : A -> M S unit) (s : S) :
  (forall a x, k a (snd (k a x)) = k a x) ->
  bind (eval r) k (snd (bind (eval r) k s)) = bind (eval r) k s.
Proof.
  intros H. unfold bind, eval. destruct r as [a | e]; [apply H | reflexivity].
Qed.

Ltac rebuilds_twice :=
  apply rebuild_twice;
  [ intros; now rewrite !plot_vectors_run | reflexivity .. ].

(** X11: running a handler a second time on unchanged inputs changes
    nothing: it returns what the first run returned and leaves the lesson,
    its plot and its information panel, exactly as the first run left them.
    Nothing accumulates from one press of the button to the next. *)
Theorem handlers_idempotent {rt : PyRuntime} {mpl : Matplotlib} :
  (forall self : VectorBasicsLesson.t,
     VectorBasicsLesson.plot (snd (VectorBasicsLesson.plot self))
     = VectorBasicsLesson.plot self)
  /\ (forall self : VectorAddSubLesson.t,
        VectorAddSubLesson.compute (snd (VectorAddSubLesson.compute self))
        = VectorAddSubLesson.compute self)
  /\ (forall self : VectorScalingLesson.t,
        VectorScalingLesson.compute
          (snd (snd (VectorScalingLesson.compute self)))
        = VectorScalingLesson.compute self)
  /\ (forall self : VectorMagnitudeLesson.t,
        VectorMagnitudeLesson.compute
          (snd (VectorMagnitudeLesson.compute self))
        = VectorMagnitudeLesson.compute self).
Proof.
  split; [|split; [|split]]; intros self.
  - unfold VectorBasicsLesson.plot, VectorBasicsLesson.show_info.
    apply gets_then_twice; [keeps_inputs|].
    intros vec x. rebuilds_twice.
  - unfold VectorAddSubLesson.compute, VectorAddSubLesson.show_info.
    apply gets_then_twice; [keeps_inputs|]. intros vec_a x.
    apply gets_then_twice; [keeps_inputs|]. intros vec_b y.
    apply gets_then_twice; [keeps_inputs|]. intros op z.
    apply eval_then_twice. intros result w. rebuilds_twice.
  - unfold VectorScalingLesson.compute.
    destruct (py_float (VectorScalingLesson.scalar_entry self)) as [k|] eqn:E.
    + cbn [snd].
      pose proof (scale_and_show_keeps
                    (VectorInput.get_vector
                       (VectorScalingLesson.vector_input self)) k self) as K.
      injection K as Hv Hk. rewrite Hv, Hk, E. f_equal.
      unfold VectorScalingLesson.scale_and_show,
        VectorScalingLesson.show_info.
      rebuilds_twice.
    + cbn [snd]. now rewrite E.
  - unfold VectorMagnitudeLesson.compute, VectorMagnitudeLesson.show_info.
    apply gets_then_twice; [keeps_inputs|].
    intros vec x. rebuilds_twice.
Qed.

(** X12: [reset] forgets what a handler did: resetting after [plot] or
    [compute] leaves the lesson as resetting before it would have, with no
    plot and no information panel. *)
Theorem reset_forgets_handler {rt : PyRuntime} {mpl : Matplotlib} :
  (forall self : VectorBasicsLesson.t,
     let after := snd (VectorBasicsLesson.reset
                         (snd (VectorBasicsLesson.plot self))) in
     after = snd (VectorBasicsLesson.reset self)
     /\ VectorBasicsLesson.parent after = no_plot
     /\ VectorBasicsLesson.info_frame after = None)
  /\ (forall self : VectorAddSubLesson.t,
        let after := snd (VectorAddSubLesson.reset
                            (snd (VectorAddSubLesson.compute self))) in
        after = snd (VectorAddSubLesson.reset self)
        /\ VectorAddSubLesson.parent after = no_plot
        /\ VectorAddSubLesson.info_frame after = None)
  /\ (forall self : VectorScalingLesson.t,
        let after := snd (VectorScalingLesson.reset
                            (snd (snd (VectorScalingLesson.compute self)))) in
        after = snd (VectorScalingLesson.reset self)
        /\ VectorScalingLesson.parent after = no_plot
        /\ VectorScalingLesson.info_frame after = None)
  /\ (forall self : VectorMagnitudeLesson.t,
        let after := snd (VectorMagnitudeLesson.reset
                            (snd (VectorMagnitudeLesson.compute self))) in
        after = snd (VectorMagnitudeLesson.reset self)
        /\ VectorMagnitudeLesson.parent after = no_plot
        /\ VectorMagnitudeLesson.info_frame after = None).
Proof.
  split; [|split; [|split]]; intros self after; subst after.
  - unfold VectorBasicsLesson.reset, modify. cbn [snd].
    now rewrite basics_plot_keeps.
  - unfold VectorAddSubLesson.reset, modify. cbn [snd].
    pose proof (addsub_compute_keeps self) as K. injection K as -> -> ->.
    repeat split.
  - unfold VectorScalingLesson.reset, modify. cbn [snd].
    unfold VectorScalingLesson.compute.
    destruct (py_float (VectorScalingLesson.scalar_entry self)) as [k|];
      [|repeat split].
    pose proof (scale_and_show_keeps
                  (VectorInput.get_vector
                     (VectorScalingLesson.vector_input self)) k self) as K.
    injection K as Hv _. cbn [snd]. rewrite Hv. repeat split.
  - unfold VectorMagnitudeLesson.reset, modify. cbn [snd].
    now rewrite magnitude_compute_keeps.
Qed.

(** X13: computing right after a reset never divides by zero.  On a runtime
    for which "0" is stripped to itself and parses as 0.0, and when the plot
    of the zero vector and the formula are drawn, [compute] on the reset
    magnitude lesson returns and shows the magnitude 0, the direction
    (0, 0, 0) and a 2D plot without any arrow. *)
Theorem magnitude_after_reset {rt : PyRuntime} {mpl : Matplotlib}
    (self : VectorMagnitudeLesson.t) :
  py_strip "0" = "0" -> py_float "0" = Some 0 ->
  VectorInput.reachable (VectorMagnitudeLesson.vector_input self) ->
  fst (PlotManager.plot_vectors [[0; 0; 0]] [PRIMARY_BLUE] [[Lit "V"]]
         [Lit "Vector Magnitude & Direction"] 12 true no_plot) = Val tt ->
  draw_formula 12 (VectorMagnitudeLesson.formula 0 0 0 0) = Val tt ->
  exists self' fig,
    VectorMagnitudeLesson.compute (snd (VectorMagnitudeLesson.reset self))
    = (Val tt, self')
    /\ shows_number (VectorMagnitudeLesson.info_frame self')
         "Magnitude |V| = " 0
    /\ shows_triple (VectorMagnitudeLesson.info_frame self')
         "Direction = (" 0 0 0
    /\ canvas_widget (VectorMagnitudeLesson.parent self') = Some fig
    /\ projection (axes fig) = Rectilinear
    /\ filter is_quiver (artists (axes fig)) = [].
Proof.
  intros Hs Hf Hr Hplot Hformula.
  destruct (reachable_triple _ Hr) as [x [y [z Hv]]].
  assert (Hz : VectorInput.get_vector
                 (VectorInput.reset (VectorMagnitudeLesson.vector_input self))
               = [0; 0; 0]).
  { rewrite reset_reads_zero_aux, Hv by assumption. reflexivity. }
  unfold VectorMagnitudeLesson.reset, modify. cbn [snd].
  unfold VectorMagnitudeLesson.compute, bind, gets, on_field.
  cbn [VectorMagnitudeLesson.vector_input VectorMagnitudeLesson.parent].
  rewrite Hz. revert Hplot. rewrite plot_vectors_run.
  remember (chosen_setup [[0; 0; 0]] [PRIMARY_BLUE] [[Lit "V"]] 12) as cs
    eqn:E.
  vm_compute in E. subst cs.
  destruct (draw_plot _) as [[] | e]; [|discriminate]. intros _.
  change (np.linalg.norm [0; 0; 0]) with 0.
  change (VectorMagnitudeLesson.direction_by np.true_divide [0; 0; 0] 0)
    with [0; 0; 0].
  unfold VectorMagnitudeLesson.show_info. unfold_info. rewrite Hformula.
  eexists. eexists. split; [reflexivity|].
  split; [shown|]. split; [shown|].
  split; [reflexivity|]. split; reflexivity.
Qed.

Lemma magnitude_after_reset_witness :
  exists self' fig,
    VectorMagnitudeLesson.compute (rt := CPython.runtime) (mpl := draws_all)
      (snd (VectorMagnitudeLesson.reset VectorMagnitudeLesson.create_ui))
    = (Val tt, self')
    /\ shows_number (VectorMagnitudeLesson.info_frame self')
         "Magnitude |V| = " 0
    /\ shows_triple (VectorMagnitudeLesson.info_frame self')
         "Direction = (" 0 0 0
    /\ canvas_widget (VectorMagnitudeLesson.parent self') = Some fig
    /\ projection (axes fig) = Rectilinear
    /\ filter is_quiver (artists (axes fig)) = [].
Proof.
  apply (magnitude_after_reset (rt := CPython.runtime) (mpl := draws_all)).
  - vm_compute. reflexivity.
  - vm_compute. reflexivity.
  - apply VectorInput.reach_init. simpl. lia.
  - vm_compute. reflexivity.
  - reflexivity.
Defined.

(** ** The application shell *)

Lemma dict_get_each {V} (f : V -> V) (k : string) (d : list (string * V)) :
  dict_get k (dict_each f d) = option_map f (dict_get k d).
Proof.
  induction d as [|[k' v] d IH]; simpl; [reflexivity|].
  destruct (k' =? k)%string; [reflexivity | exact IH].
Qed.

Lemma dict_get_set {V} (n k : string) (v : V) (d : list (string * V)) :
  dict_get n (dict_set k v d)
  = if (n =? k)%string then Some v else dict_get n d.
Proof.
  induction d as [|[k' v'] d IH]; simpl.
  - rewrite (String.eqb_sym k n). reflexivity.
  - destruct (k' =? k)%string eqn:Ek; simpl.
    + apply String.eqb_eq in Ek. subst k'.
      rewrite (String.eqb_sym k n). destruct (n =? k)%string; reflexivity.
    + destruct (k' =? n)%string eqn:En; [|exact IH].
      apply String.eqb_eq in En. subst k'. now rewrite Ek.
Qed.

Lemma dict_get_at {V} (f : V -> V) (n k : string) (d : list (string * V)) :
  dict_get n (dict_at k f d)
  = if (n =? k)%string then option_map f (dict_get n d) else dict_get n d.
Proof.
  induction d as [|[k' v] d IH]; simpl.
  - now destruct (n =? k)%string.
  - destruct (k' =? k)%string eqn:Ek; simpl;
      destruct (k' =? n)%string eqn:En; try exact IH.
    + apply String.eqb_eq in Ek, En. subst. now rewrite String.eqb_refl.
    + apply String.eqb_eq in En. subst k'. now rewrite Ek.
Qed.

Lemma dict_keys_each {V} (f : V -> V) (d : list (string * V)) :
  dict_keys (dict_each f d) = dict_keys d.
Proof. unfold dict_keys, dict_each. rewrite map_map. reflexivity. Qed.

Lemma dict_keys_at {V} (f : V -> V) (k : string) (d : list (string * V)) :
  dict_keys (dict_at k f d) = dict_keys d.
Proof.
  unfold dict_keys, dict_at. rewrite map_map. apply map_ext.
  intros [k' v]. simpl. now destruct (k' =? k)%string.
Qed.

Lemma dict_get_none {V} (k : string) (d : list (string * V)) :
  dict_get k d = None <-> ~ In k (dict_keys d).
Proof.
  induction d as [|[k' v] d IH]; simpl; [tauto|].
  destruct (k' =? k)%string eqn:E.
  - apply String.eqb_eq in E. split; [discriminate | tauto].
  - apply String.eqb_neq in E. tauto.
Qed.

Lemma dict_keys_set_new {V} (k : string) (v : V) (d : list (string * V)) :
  dict_get k d = None -> dict_keys (dict_set k v d) = (dict_keys d ++ [k])%list.
Proof.
  induction d as [|[k' v'] d IH]; simpl; [reflexivity|].
  destruct (k' =? k)%string; [discriminate|].
  intros H. simpl. now rewrite IH.
Qed.

(** The keys of the frames after [show_lesson]: those before, and the name
    shown, last, if it was not among them. *)
Lemma show_lesson_keys (name : string) (self : VectorLearningApp.t) :
  dict_keys (VectorLearningApp.lesson_frames
               (VectorLearningApp.show_lesson name self))
  = match dict_get name (VectorLearningApp.lesson_frames self) with
    | Some _ => dict_keys (VectorLearningApp.lesson_frames self)
    | None => (dict_keys (VectorLearningApp.lesson_frames self) ++ [name])%list
    end.
Proof.
  unfold VectorLearningApp.show_lesson. cbn [VectorLearningApp.lesson_frames].
  rewrite dict_get_each.
  destruct (dict_get name (VectorLearningApp.lesson_frames self)) eqn:E;
    cbn [option_map]; rewrite dict_keys_at.
  - apply dict_keys_each.
  - rewrite dict_keys_set_new, dict_keys_each; [reflexivity|].
    now rewrite dict_get_each, E.
Qed.

Lemma in_dict_set {V} (n k : string) (f v : V) (d : list (string * V)) :
  In (n, f) (dict_set k v d) -> In (n, f) d \/ (n, f) = (k, v).
Proof.
  induction d as [|[k' v'] d IH]; simpl.
  - intros [H | []]. right. now symmetry.
  - destruct (k' =? k)%string eqn:E; simpl.
    + apply String.eqb_eq in E. subst k'. intros [H | H]; auto.
    + intros [H | H]; auto. destruct (IH H); auto.
Qed.

(** X14: after [show_lesson], a frame is shown if and only if it is the
    frame of the lesson named: every other frame is hidden, and the named
    lesson has a frame.  The keys of the frames stay distinct. *)
Theorem show_lesson_shows_one (name : string) (self : VectorLearningApp.t) :
  let frames :=
    VectorLearningApp.lesson_frames (VectorLearningApp.show_lesson name self) in
  (forall n f, In (n, f) frames -> packed f = (n =? name)%string)
  /\ (exists f, dict_get name frames = Some f /\ packed f = true)
  /\ (NoDup (dict_keys (VectorLearningApp.lesson_frames self)) ->
      NoDup (dict_keys frames)).
Proof.
  intros frames. split; [|split].
  - intros n f Hin. subst frames.
    unfold VectorLearningApp.show_lesson in Hin.
    cbn [VectorLearningApp.lesson_frames] in Hin.
    unfold dict_at in Hin. apply in_map_iff in Hin.
    destruct Hin as [[k v] [Heq Hin]]. cbn [fst snd] in Heq.
    assert (Hv : packed v = false).
    { destruct (dict_get name (dict_each _ _)).
      - unfold dict_each in Hin. apply in_map_iff in Hin.
        destruct Hin as [[k0 v0] [H0 _]]. now injection H0 as _ <-.
      - apply in_dict_set in Hin. destruct Hin as [Hin | Hin].
        + unfold dict_each in Hin. apply in_map_iff in Hin.
          destruct Hin as [[k0 v0] [H0 _]]. now injection H0 as _ <-.
        + now injection Hin as _ ->. }
    destruct (k =? name)%string eqn:E; injection Heq as <- <-;
      rewrite E; [reflexivity | exact Hv].
  - subst frames. unfold VectorLearningApp.show_lesson.
    cbn [VectorLearningApp.lesson_frames].
    rewrite dict_get_at, String.eqb_refl.
    destruct (dict_get name (dict_each _ _)) as [f|] eqn:E.
    + rewrite E. now eexists.
    + rewrite dict_get_set, E, String.eqb_refl. now eexists.
  - intros Hnd. subst frames. rewrite show_lesson_keys.
    destruct (dict_get name (VectorLearningApp.lesson_frames self)) eqn:E;
      [assumption|].
    apply dict_get_none in E.
    apply NoDup_app; [assumption | repeat constructor; auto | ].
    intros x Hx [<- | []]. contradiction.
Qed.

(** X15: switching lessons loses nothing: [show_lesson] leaves the lesson of
    every frame that exists as it is, with its inputs, plot and information
    panel, and builds a lesson with the default inputs only for a name that
    has no frame yet. *)
Theorem show_lesson_keeps_panels (name n : string)
    (self : VectorLearningApp.t) :
  option_map panel
    (dict_get n (VectorLearningApp.lesson_frames
                   (VectorLearningApp.show_lesson name self)))
  = match dict_get n (VectorLearningApp.lesson_frames self) with
    | Some f => Some (panel f)
    | None =>
        if (n =? name)%string
        then Some (VectorLearningApp.new_panel name) else None
    end.
Proof.
  unfold VectorLearningApp.show_lesson. cbn [VectorLearningApp.lesson_frames].
  rewrite dict_get_at.
  assert (Hname : dict_get name
                    (dict_each VectorLearningApp.pack_forget
                       (VectorLearningApp.lesson_frames self))
                  = option_map VectorLearningApp.pack_forget
                      (dict_get name (VectorLearningApp.lesson_frames self)))
    by apply dict_get_each.
  destruct (dict_get name (VectorLearningApp.lesson_frames self))
    as [g|] eqn:Eg; rewrite Hname; cbn [option_map].
  - rewrite dict_get_each.
    destruct (dict_get n (VectorLearningApp.lesson_frames self)) as [f|] eqn:Ef;
      destruct (n =? name)%string eqn:E; try reflexivity.
    apply String.eqb_eq in E. subst n. congruence.
  - rewrite dict_get_set, dict_get_each.
    destruct (n =? name)%string eqn:E.
    + apply String.eqb_eq in E. subst n. rewrite Eg. reflexivity.
    + now destruct (dict_get n (VectorLearningApp.lesson_frames self)).
Qed.

Lemma each_forget_at (k : string) (d : list (string * LessonFrame)) :
  dict_each VectorLearningApp.pack_forget
    (dict_at k VectorLearningApp.pack d)
  = dict_each VectorLearningApp.pack_forget d.
Proof.
  unfold dict_each, dict_at. rewrite map_map. apply map_ext.
  intros [k' v]. cbn [fst snd]. now destruct (k' =? k)%string.
Qed.

Lemma each_forget_twice (d : list (string * LessonFrame)) :
  dict_each VectorLearningApp.pack_forget
    (dict_each VectorLearningApp.pack_forget d)
  = dict_each VectorLearningApp.pack_forget d.
Proof. unfold dict_each. rewrite map_map. reflexivity. Qed.

Lemma each_forget_set (k : string) (v : LessonFrame)
    (d : list (string * LessonFrame)) :
  dict_each VectorLearningApp.pack_forget (dict_set k v d)
  = dict_set k (VectorLearningApp.pack_forget v)
      (dict_each VectorLearningApp.pack_forget d).
Proof.
  induction d as [|[k' v'] d IH]; simpl; [reflexivity|].
  destruct (k' =? k)%string; simpl; [reflexivity | now rewrite IH].
Qed.

(** X16: only the last [show_lesson] counts.  Showing a lesson twice is
    showing it once, and showing a lesson that already has a frame and then
    another one leaves the application as showing the second one at once
    would. *)
Theorem show_lesson_last_wins (a b : string) (self : VectorLearningApp.t) :
  VectorLearningApp.show_lesson a (VectorLearningApp.show_lesson a self)
  = VectorLearningApp.show_lesson a self
  /\ (dict_get b (VectorLearningApp.lesson_frames self) <> None ->
      VectorLearningApp.show_lesson a (VectorLearningApp.show_lesson b self)
      = VectorLearningApp.show_lesson a self).
Proof.
  split.
  - unfold VectorLearningApp.show_lesson.
    cbn [VectorLearningApp.lesson_frames]. f_equal.
    rewrite each_forget_at.
    set (d := dict_each VectorLearningApp.pack_forget
                (VectorLearningApp.lesson_frames self)).
    destruct (dict_get a d) as [f|] eqn:E.
    + subst d. rewrite each_forget_twice, E. reflexivity.
    + rewrite each_forget_set. subst d. rewrite each_forget_twice.
      cbn [VectorLearningApp.pack_forget packed panel].
      now rewrite dict_get_set, String.eqb_refl.
  - intros Hb. unfold VectorLearningApp.show_lesson.
    cbn [VectorLearningApp.lesson_frames]. f_equal.
    rewrite each_forget_at.
    destruct (dict_get b (dict_each VectorLearningApp.pack_forget
                            (VectorLearningApp.lesson_frames self)))
      as [f|] eqn:E.
    + now rewrite each_forget_twice.
    + rewrite dict_get_each in E.
      destruct (dict_get b (VectorLearningApp.lesson_frames self));
        [discriminate | contradiction].
Qed.

Lemma show_lesson_last_wins_witness :
  VectorLearningApp.show_lesson "Vector Scaling"
    (VectorLearningApp.show_lesson "Vector Basics"
       (VectorLearningApp.show_lesson "Vector Scaling"
          VectorLearningApp.init))
  = VectorLearningApp.show_lesson "Vector Scaling"
      (VectorLearningApp.show_lesson "Vector Scaling" VectorLearningApp.init).
Proof.
  apply (proj2 (show_lesson_last_wins "Vector Scaling" "Vector Basics"
                  (VectorLearningApp.show_lesson "Vector Scaling"
                     VectorLearningApp.init))).
  vm_compute. discriminate.
Defined.

(** X17: declining the question of [reset_all] changes nothing.  Confirming
    it brings the application back to its state at start, with the first
    lesson shown on its default inputs and no other frame, so that every
    lesson opened next has its default inputs, no plot and no information
    panel, whatever had been entered before. *)
Theorem reset_all_restarts (self : VectorLearningApp.t) (name : string) :
  VectorLearningApp.reset_all false self = self
  /\ VectorLearningApp.reset_all true self = VectorLearningApp.init
  /\ VectorLearningApp.lesson_frames (VectorLearningApp.reset_all true self)
     = [("Vector Basics",
         {| packed := true;
            panel := BasicsPanel VectorBasicsLesson.create_ui |})]
  /\ dict_get name
       (VectorLearningApp.lesson_frames
          (VectorLearningApp.show_lesson name
             (VectorLearningApp.reset_all true self)))
     = Some {| packed := true; panel := VectorLearningApp.new_panel name |}.
Proof.
  split; [reflexivity|]. split; [reflexivity|]. split; [reflexivity|].
  unfold VectorLearningApp.reset_all.
  change (VectorLearningApp.show_lesson (nth 0 VectorLearningApp.lessons "")
            {| VectorLearningApp.lesson_frames := [] |})
    with {| VectorLearningApp.lesson_frames :=
              [("Vector Basics",
                {| packed := true;
                   panel := BasicsPanel VectorBasicsLesson.create_ui |})] |}.
  unfold VectorLearningApp.show_lesson.
  cbn [VectorLearningApp.lesson_frames dict_each map fst snd
       VectorLearningApp.pack_forget panel dict_get].
  destruct ("Vector Basics" =? name)%string eqn:E.
  - apply String.eqb_eq in E. subst name. reflexivity.
  - cbn [dict_set]. rewrite E. cbn [dict_at map fst snd]. rewrite E.
    rewrite String.eqb_refl. cbn [dict_get fst snd]. rewrite E.
    rewrite String.eqb_refl. reflexivity.
Qed.

(** X18: [update_main_scroll] centres the content: when the canvas is wider
    than the content, the margin on the left is at most the margin on the
    right, and smaller by one pixel at most; otherwise the content starts at
    the left edge.  The content is never moved down. *)
Theorem content_is_centred (canvas_width content_width : Z) :
  let x := fst (VectorLearningApp.update_main_scroll canvas_width
                  content_width) in
  let y := snd (VectorLearningApp.update_main_scroll canvas_width
                  content_width) in
  let right := (canvas_width - (x + content_width))%Z in
  y = 0%Z
  /\ ((content_width < canvas_width)%Z ->
      (0 <= x <= right)%Z /\ (right <= x + 1)%Z)
  /\ ((canvas_width <= content_width)%Z -> x = 0%Z).
Proof.
  unfold VectorLearningApp.update_main_scroll.
  destruct (content_width <? canvas_width)%Z eqn:E; cbn [fst snd].
  - apply Z.ltb_lt in E. split; [reflexivity|]. split; [|lia].
    intros _.
    pose proof (Z.div_mod (canvas_width - content_width) 2 ltac:(lia)) as Hd.
    pose proof (Z.mod_pos_bound (canvas_width - content_width) 2
                  ltac:(lia)) as Hm.
    lia.
  - apply Z.ltb_ge in E. split; [reflexivity|]. split; [lia|]. reflexivity.
Qed.

(** ** The formula renderer *)

(** [a < b] gives [a <= b]. *)
Lemma ltb_leb (a b : float) : (a <? b) = true -> (a <=? b) = true.
Proof.
  rewrite FloatAxioms.ltb_spec, FloatAxioms.leb_spec. unfold SFltb, SFleb.
  destruct (SFcompare (Prim2SF a) (Prim2SF b)) as [[]|];
    try discriminate; reflexivity.
Qed.

Lemma count_newlines_nonneg (s : string) :
  (0 <= FormulaRenderer.count_newlines s)%Z.
Proof.
  induction s as [|c s IH]; simpl; [lia|].
  destruct (N_of_ascii c =? 10)%N; lia.
Qed.

(** X19: the figure of a formula is never higher than 3.0, whatever the
    text, and the lower bound 1 that [render] puts on the number of lines
    never applies: the number of lines is the number of line breaks plus
    one.  A text of one line gets the height 1.2. *)
Theorem formula_height_bounded (latex_text : string) :
  (FormulaRenderer.height_of latex_text <=? 3) = true
  /\ FormulaRenderer.lines_of latex_text
     = (FormulaRenderer.count_newlines latex_text + 1)%Z
  /\ (FormulaRenderer.count_newlines latex_text = 0%Z ->
      FormulaRenderer.height_of latex_text = FormulaRenderer.BASE_HEIGHT).
Proof.
  pose proof (count_newlines_nonneg latex_text) as Hn.
  split; [|split].
  - unfold FormulaRenderer.height_of, FormulaRenderer.py_min.
    destruct (_ <? 3) eqn:E.
    + now apply ltb_leb.
    + reflexivity.
  - unfold FormulaRenderer.lines_of. lia.
  - intros H0. unfold FormulaRenderer.height_of, FormulaRenderer.lines_of.
    rewrite H0. vm_compute. reflexivity.
Qed.

(** The two constants of the renderer are the values of the literals of the
    source. *)
Example base_height_is_1_2 :
  CPython.parse_float "1.2" = Some FormulaRenderer.BASE_HEIGHT
  /\ CPython.parse_float "0.3" = Some FormulaRenderer.LINE_HEIGHT.
Proof. split; vm_compute; reflexivity. Qed.

(** ** The dimension of the plot of a lesson *)

(** X20: the basics lesson and the magnitude lesson, which plot the one
    vector read from the form, show a 3D plot exactly when the absolute
    value of the Z component exceeds 1e-10, and a 2D plot otherwise: such is
    the plot on the canvas, which is there exactly when the call of
    [plot_vectors] has returned. *)
Theorem single_vector_dimension {rt : PyRuntime} {mpl : Matplotlib}
    (x y z : float) :
  (forall self : VectorBasicsLesson.t,
     VectorInput.get_vector (VectorBasicsLesson.vector_input self) = [x; y; z] ->
     (forall fig,
        canvas_widget
          (VectorBasicsLesson.parent (snd (VectorBasicsLesson.plot self)))
        = Some fig ->
        projection (axes fig)
        = if SMALL <? PrimFloat.abs z then Projection3D else Rectilinear)
     /\ (canvas_widget
           (VectorBasicsLesson.parent (snd (VectorBasicsLesson.plot self)))
         <> None
         <-> fst (PlotManager.plot_vectors [[x; y; z]] [PRIMARY_BLUE]
                    [[Lit "V"]] [Lit "Vector Visualization"] 10 true
                    (VectorBasicsLesson.parent self)) = Val tt))
  /\ (forall self : VectorMagnitudeLesson.t,
        VectorInput.get_vector (VectorMagnitudeLesson.vector_input self)
        = [x; y; z] ->
        (forall fig,
           canvas_widget
             (VectorMagnitudeLesson.parent
                (snd (VectorMagnitudeLesson.compute self)))
           = Some fig ->
           projection (axes fig)
           = if SMALL <? PrimFloat.abs z then Projection3D else Rectilinear)
        /\ (canvas_widget
              (VectorMagnitudeLesson.parent
                 (snd (VectorMagnitudeLesson.compute self)))
            <> None
            <-> fst (PlotManager.plot_vectors [[x; y; z]] [PRIMARY_BLUE]
                       [[Lit "V"]] [Lit "Vector Magnitude & Direction"] 12
                       true (VectorMagnitudeLesson.parent self)) = Val tt)).
Proof.
  assert (Hneeds : PlotManager.needs_3d [[x; y; z]] = (SMALL <? PrimFloat.abs z)).
  { unfold PlotManager.needs_3d. cbn. apply orb_false_r. }
  assert (Hplot : forall heading limits tab,
            let plotted :=
              PlotManager.plot_vectors [[x; y; z]] [PRIMARY_BLUE] [[Lit "V"]]
                heading limits true tab in
            (forall fig, canvas_widget (snd plotted) = Some fig ->
               projection (axes fig)
               = if SMALL <? PrimFloat.abs z
                 then Projection3D else Rectilinear)
            /\ (canvas_widget (snd plotted) <> None
                <-> fst plotted = Val tt)).
  { intros heading limits tab plotted. subst plotted.
    rewrite plot_vectors_run.
    pose proof (chosen_setup_projection [[x; y; z]] [PRIMARY_BLUE] [[Lit "V"]]
                  limits) as Hp.
    destruct (chosen_setup _ _ _ _) as [[[] | e] ax];
      [destruct (draw_plot _) as [[] | e]|]; cbn [fst snd canvas_widget].
    - split; [|split; [reflexivity | discriminate]].
      intros fig H. injection H as <-. cbn [snd] in Hp.
      unfold figure_of. cbn. now rewrite Hp, Hneeds.
    - split; [discriminate|]. split; [congruence | discriminate].
    - split; [discriminate|]. split; [congruence | discriminate]. }
  split; intros self Hv.
  - unfold VectorBasicsLesson.plot, bind, gets, on_field. rewrite Hv.
    specialize (Hplot [Lit "Vector Visualization"] 10
                  (VectorBasicsLesson.parent self)).
    cbv zeta in Hplot.
    destruct (PlotManager.plot_vectors _ _ _ _ _ _ _) as [[[] | e] tab'];
      cbn [fst snd] in *; [|exact Hplot].
    unfold VectorBasicsLesson.show_info. run_info; exact Hplot.
  - unfold VectorMagnitudeLesson.compute, bind, gets, on_field. rewrite Hv.
    specialize (Hplot [Lit "Vector Magnitude & Direction"] 12
                  (VectorMagnitudeLesson.parent self)).
    cbv zeta in Hplot.
    destruct (PlotManager.plot_vectors _ _ _ _ _ _ _) as [[[] | e] tab'];
      cbn [fst snd] in *; [|exact Hplot].
    unfold VectorMagnitudeLesson.direction_by.
    destruct (SMALL <? np.linalg.norm [x; y; z]);
      unfold VectorMagnitudeLesson.show_info;
      cbn [np.true_divide np.zeros_like map]; run_info; exact Hplot.
Qed.
